(** * GitHub project exporter: a shallow embedding of
      [github_project_exporter.py] and the properties of its paginator,
      flattener, transport adapter and orchestrator. *)

From Stdlib Require Import ZArith List String Ascii Bool Lia Arith.
From Stdlib Require Import DecimalString.
Import ListNotations.
Open Scope string_scope.
Open Scope list_scope.
Set Warnings "-register-all".

(** ** Python values

    The program handles what [json.loads] returns: [None], booleans,
    integers, floats, strings, lists and dicts with string keys.

    - A [str] is held as its UTF-8 bytes.
    - A [float] is held as the text [str()] gives for it (["5.0"], ["-0.0"],
      ["inf"]): the program only prints floats and tests their truth value,
      and both are functions of that text.
    - A [dict] is an association list in insertion order; the first binding
      of a key is the one the dict holds. *)

Inductive pyval : Type :=
| PNone
| PBool (b : bool)
| PInt (z : Z)
| PFloat (text : string)
| PStr (s : string)
| PList (l : list pyval)
| PDict (d : list (string * pyval)).

(** The exceptions the program raises or lets through.  All of them are
    subclasses of [Exception]. *)
Inductive exn : Type :=
| Exception (msg : string)
| AttributeError
| TypeError
| KeyError (key : string)
| FileNotFoundError
| CalledProcessError (returncode : Z) (stdout stderr : string)
| JSONDecodeError (msg : string).

(** What running a piece of code gives: a value, an exception, or nothing
    yet when the iteration budget of a [while True] loop is used up. *)
Inductive outcome (A : Type) : Type :=
| Return (a : A)
| Raise (e : exn)
| OutOfFuel.

Arguments Return {A} a.
Arguments Raise {A} e.
Arguments OutOfFuel {A}.

(** A run that comes to an end: it returns or raises. *)
Definition finishes {A} (c : outcome A) : Prop :=
  match c with OutOfFuel => False | _ => True end.

(** ** The two monads of the development *)

Class Monad (M : Type -> Type) : Type :=
  { ret : forall {A}, A -> M A;
    bind : forall {A B}, M A -> (A -> M B) -> M B }.

Declare Scope py_scope.
Delimit Scope py_scope with py.
Notation "x <- c ;; k" := (bind c (fun x => k))
  (at level 61, c at next level, right associativity) : py_scope.
Notation "c ;;; k" := (bind c (fun _ => k))
  (at level 61, right associativity) : py_scope.
Open Scope py_scope.

Definition outcome_bind {A B} (c : outcome A) (k : A -> outcome B) : outcome B :=
  match c with
  | Return a => k a
  | Raise e => Raise e
  | OutOfFuel => OutOfFuel
  end.

#[global] Instance outcome_Monad : Monad outcome :=
  { ret := @Return; bind := @outcome_bind }.

(** Code that talks to the outside: a state [S] threaded through. *)
Definition io (S A : Type) : Type := S -> outcome A * S.

Definition io_bind {S A B} (c : io S A) (k : A -> io S B) : io S B :=
  fun s => match c s with
           | (Return a, s') => k a s'
           | (Raise e, s') => (Raise e, s')
           | (OutOfFuel, s') => (OutOfFuel, s')
           end.

#[global] Instance io_Monad (S : Type) : Monad (io S) :=
  { ret := fun A a s => (Return a, s); bind := @io_bind S }.

(** Pure code run inside [io]: the state is not touched. *)
Definition pure {S A} (c : outcome A) : io S A := fun s => (c, s).

(** ** Strings *)

Definition newline : ascii := ascii_of_nat 10.
Definition carriage_return : ascii := ascii_of_nat 13.
Definition space : ascii := ascii_of_nat 32.

(** [str.lower()].  On bytes it moves [A-Z] to [a-z] and leaves the rest.
    Python lowers non-ASCII letters too, to non-ASCII text except for the
    Kelvin sign, which becomes [k]; so the comparison of the result with
    ["story points"], the only use made of it, is the same as Python's. *)
Definition lower_ascii (a : ascii) : ascii :=
  let n := nat_of_ascii a in
  if ((65 <=? n) && (n <=? 90))%nat then ascii_of_nat (n + 32) else a.

Fixpoint lower (s : string) : string :=
  match s with
  | EmptyString => EmptyString
  | String a s' => String (lower_ascii a) (lower s')
  end.

(** [s.replace(old, new)] for one-character [old] and [new], as both calls
    of the program are. *)
Fixpoint replace (old new : ascii) (s : string) : string :=
  match s with
  | EmptyString => EmptyString
  | String a s' =>
      String (if Ascii.eqb a old then new else a) (replace old new s')
  end.

(** [needle in haystack] on strings. *)
Fixpoint is_infix (needle haystack : string) : bool :=
  prefix needle haystack ||
  match haystack with
  | EmptyString => false
  | String _ rest => is_infix needle rest
  end.

(** The characters of a [str]: its UTF-8 bytes cut at the lead bytes. *)
Definition utf8_width (a : ascii) : nat :=
  let n := nat_of_ascii a in
  if (n <? 192)%nat then 1 else if (n <? 224)%nat then 2
  else if (n <? 240)%nat then 3 else 4.

Fixpoint split_at (n : nat) (s : string) : string * string :=
  match n, s with
  | S n', String a s' => let (h, t) := split_at n' s' in (String a h, t)
  | _, _ => (EmptyString, s)
  end.

Fixpoint chars_upto (fuel : nat) (s : string) : list string :=
  match fuel, s with
  | S fuel', String a s' =>
      let (h, t) := split_at (utf8_width a - 1) s' in
      String a h :: chars_upto fuel' t
  | _, _ => []
  end.

Definition chars (s : string) : list string := chars_upto (String.length s) s.

(** [str(n)] for an [int]. *)
Definition str_of_Z (z : Z) : string := NilZero.string_of_int (Z.to_int z).

(** ** Dicts *)

Fixpoint lookup (key : string) (d : list (string * pyval)) : option pyval :=
  match d with
  | [] => None
  | (k, v) :: rest => if String.eqb k key then Some v else lookup key rest
  end.

Fixpoint keys (d : list (string * pyval)) : list string :=
  match d with
  | [] => []
  | (k, _) :: rest =>
      k :: filter (fun k' => negb (String.eqb k' k)) (keys rest)
  end.

(** ** Operators and methods of Python used by the program *)

(** [bool(v)]. *)
Definition truthy (v : pyval) : bool :=
  match v with
  | PNone => false
  | PBool b => b
  | PInt z => negb (Z.eqb z 0)
  | PFloat t => negb (String.eqb t "0.0" || String.eqb t "-0.0")
  | PStr s => negb (String.eqb s "")
  | PList l => match l with [] => false | _ => true end
  | PDict d => match d with [] => false | _ => true end
  end.

(** [a or b]. *)
Definition py_or (a b : pyval) : pyval := if truthy a then a else b.

(** [v.get(key, default)]: only a dict has the method. *)
Definition get (v : pyval) (key : string) (default : pyval) : outcome pyval :=
  match v with
  | PDict d => Return (match lookup key d with Some x => x | None => default end)
  | _ => Raise AttributeError
  end.

(** [v[key]] for a string [key]. *)
Definition subscript (v : pyval) (key : string) : outcome pyval :=
  match v with
  | PDict d => match lookup key d with
               | Some x => Return x
               | None => Raise (KeyError key)
               end
  | _ => Raise TypeError
  end.

(** [key in v] for a string [key]. *)
Definition contains (key : string) (v : pyval) : outcome bool :=
  match v with
  | PDict d => Return (match lookup key d with Some _ => true | None => false end)
  | PList l =>
      Return (existsb (fun x => match x with
                                | PStr s => String.eqb s key
                                | _ => false
                                end) l)
  | PStr s => Return (is_infix key s)
  | _ => Raise TypeError
  end.

(** What a [for] loop, a comprehension or [list.extend] goes through. *)
Definition iterate (v : pyval) : outcome (list pyval) :=
  match v with
  | PList l => Return l
  | PStr s => Return (map PStr (chars s))
  | PDict d => Return (map PStr (keys d))
  | _ => Raise TypeError
  end.

(** [v.lower()]: only a [str] has the method. *)
Definition py_lower (v : pyval) : outcome string :=
  match v with
  | PStr s => Return (lower s)
  | _ => Raise AttributeError
  end.

(** [v.replace(old, new)]: only a [str] has the method. *)
Definition py_replace (v : pyval) (old new : ascii) : outcome string :=
  match v with
  | PStr s => Return (replace old new s)
  | _ => Raise AttributeError
  end.

Section Interpreter.

(** [repr()] of a list or dict.  Its text quotes and escapes the strings
    inside by Unicode tables; it is left open, and nothing below depends
    on what it is. *)
Variable repr : pyval -> string.

(** [str(v)], also what an f-string puts for [{v}]. *)
Definition str (v : pyval) : string :=
  match v with
  | PNone => "None"
  | PBool true => "True"
  | PBool false => "False"
  | PInt z => str_of_Z z
  | PFloat t => t
  | PStr s => s
  | PList _ | PDict _ => repr v
  end.

(** ** The flattener: [process_items_to_csv_rows] *)

(** A row of the CSV: the six cells handed to [csv.writer]. *)
Definition csv_row : Type := list pyval.

(** The body of [case "story points":], the value taken from the matching
    field; the [break] that follows it is in [field_values_loop]. *)
Definition case_story_points (field_value story_points : pyval) : outcome pyval :=
  has_number <- contains "number" field_value ;;
  if has_number : bool then
    number <- subscript field_value "number" ;;
    ret (PStr (str number))
  else
    has_text <- contains "text" field_value ;;
    if has_text : bool then subscript field_value "text"
    else ret story_points.

(** [for field_value in field_values: ...], giving [story_points] as it is
    when the loop is left. *)
Fixpoint field_values_loop (field_values : list pyval) (story_points : pyval)
  : outcome pyval :=
  match field_values with
  | [] => ret story_points
  | field_value :: rest =>
      field_info <- get field_value "field" (PDict []) ;;
      field_name <- get field_info "name" (PStr "") ;;
      lowered <- py_lower field_name ;;
      if String.eqb lowered "story points"
      then case_story_points field_value story_points
      else field_values_loop rest story_points
  end.

(** [[label["name"] for label in nodes]]. *)
Fixpoint label_names (nodes : list pyval) : outcome (list pyval) :=
  match nodes with
  | [] => ret []
  | label :: rest =>
      name <- subscript label "name" ;;
      names <- label_names rest ;;
      ret (name :: names)
  end.

(** One turn of [for item in items]: [None] is the [continue] of an item
    without content, [Some row] the row appended to [csv_rows]. *)
Definition item_to_row (item : pyval) : outcome (option csv_row) :=
  content <- get item "content" PNone ;;
  if negb (truthy content) then ret None
  else
    number <- get content "number" (PStr "") ;;
    title <- get content "title" (PStr "") ;;
    body_or_none <- get content "body" PNone ;;
    let body := py_or body_or_none (PStr "") in
    url <- get content "url" (PStr "") ;;
    labels_field <- get content "labels" (PDict []) ;;
    labels_nodes <- get labels_field "nodes" PNone ;;
    labels <- (if truthy labels_nodes then
                 l <- subscript content "labels" ;;
                 nodes <- subscript l "nodes" ;;
                 nodes <- iterate nodes ;;
                 label_names nodes
               else ret []) ;;
    is_epic <- contains "Epic" (PList labels) ;;
    let issue_type := if is_epic : bool then PStr "Epic" else PStr "Story" in
    field_values_field <- get item "fieldValues" (PDict []) ;;
    field_values <- get field_values_field "nodes" (PList []) ;;
    field_values <- iterate field_values ;;
    story_points <- field_values_loop field_values (PStr "") ;;
    let formatted_title :=
      if truthy story_points
      then PStr ("[" ++ str story_points ++ "] " ++ str title)
      else title in
    description <- py_replace body newline space ;;
    description <- py_replace (PStr description) carriage_return space ;;
    ret (Some [issue_type; formatted_title; PStr (str number); url;
               PStr description; PStr ""]).

Fixpoint items_loop (items : list pyval) (csv_rows : list csv_row)
  : outcome (list csv_row) :=
  match items with
  | [] => ret csv_rows
  | item :: rest =>
      row <- item_to_row item ;;
      match row with
      | None => items_loop rest csv_rows
      | Some csv_row => items_loop rest (csv_rows ++ [csv_row])
      end
  end.

Definition process_items_to_csv_rows (items : list pyval)
  : outcome (list csv_row) :=
  items_loop items [].

End Interpreter.

(** ** The exporter object

    [self] as the methods of [GitHubProjectExporter] see it: the two
    methods of the transport adapter, which a test replaces by a mock.
    [T] is the state of what answers them. *)
Record exporter (T : Type) : Type :=
  { _verify_gh_auth : io T unit;
    _make_graphql_request : string -> pyval -> io T pyval }.

Arguments _verify_gh_auth {T} self : rename.
Arguments _make_graphql_request {T} self query variables : rename.

(** ** The paginator: [get_all_project_items] *)

(** The query document of the source, character for character. *)
Definition items_query : string := "
            query($org: String!, $number: Int!, $cursor: String) {
              organization(login: $org) {
                projectV2(number: $number) {
                  items(first: 100, after: $cursor) {
                    pageInfo {
                      hasNextPage
                      endCursor
                    }
                    nodes {
                      id
                      fieldValues(first: 20) {
                        nodes {
                          ... on ProjectV2ItemFieldTextValue {
                            text
                            field {
                              ... on ProjectV2FieldCommon {
                                name
                              }
                            }
                          }
                          ... on ProjectV2ItemFieldNumberValue {
                            number
                            field {
                              ... on ProjectV2FieldCommon {
                                name
                              }
                            }
                          }
                        }
                      }
                      content {
                        ... on Issue {
                          number
                          title
                          body
                          url
                          labels(first: 20) {
                            nodes {
                              name
                            }
                          }
                        }
                        ... on PullRequest {
                          number
                          title
                          body
                          url
                          labels(first: 20) {
                            nodes {
                              name
                            }
                          }
                        }
                      }
                    }
                  }
                }
              }
            }
            ".

Section Paginator.

Context {T : Type}.
Variable self : exporter T.
Variables (org : string) (project_number : Z).

(** [while True: ...], with [fuel] bounding the number of turns. *)
Fixpoint while_true (fuel : nat) (all_items : list pyval) (cursor : pyval)
  : io T (list pyval) :=
  match fuel with
  | O => fun t => (OutOfFuel, t)
  | S fuel' =>
      let query := items_query in
      let variables := PDict [("org", PStr org);
                              ("number", PInt project_number);
                              ("cursor", cursor)] in
      data <- _make_graphql_request self query variables ;;
      organization <- pure (subscript data "organization") ;;
      projectV2 <- pure (subscript organization "projectV2") ;;
      project_data <- pure (subscript projectV2 "items") ;;
      nodes <- pure (subscript project_data "nodes") ;;
      nodes <- pure (iterate nodes) ;;
      let all_items := all_items ++ nodes in
      pageInfo <- pure (subscript project_data "pageInfo") ;;
      hasNextPage <- pure (subscript pageInfo "hasNextPage") ;;
      if negb (truthy hasNextPage) then ret all_items
      else
        pageInfo <- pure (subscript project_data "pageInfo") ;;
        cursor <- pure (subscript pageInfo "endCursor") ;;
        while_true fuel' all_items cursor
  end.

Definition get_all_project_items (fuel : nat) : io T (list pyval) :=
  while_true fuel [] PNone.

End Paginator.

(** ** The orchestrator: [export_to_csv] and [main] *)

(** The outside world of a run: what answers the transport adapter, and the
    files written, newest first, each with the rows given to
    [csv.writer.writerows].  [open] is taken to succeed; the [print] calls,
    which change nothing else, are left out. *)
Record world (T : Type) : Type :=
  { tool : T;
    files : list (string * list csv_row) }.

Arguments tool {T} w : rename.
Arguments files {T} w : rename.

Section Orchestrator.

Context {T : Type}.
Variable repr : pyval -> string.

(** A method of the adapter run in the world: the files are not its. *)
Definition on_tool {A} (c : io T A) : io (world T) A :=
  fun w => let (r, t) := c (tool w) in (r, {| tool := t; files := files w |}).

(** [with open(output_file, 'w', ...) as csvfile: writer.writerows(csv_rows)]. *)
Definition write_csv (output_file : string) (csv_rows : list csv_row)
  : io (world T) unit :=
  fun w => (Return tt,
            {| tool := tool w; files := (output_file, csv_rows) :: files w |}).

Definition export_to_csv (self : exporter T) (fuel : nat)
    (org : string) (project_number : Z) (output_file : string)
  : io (world T) unit :=
  items <- on_tool (get_all_project_items self org project_number fuel) ;;
  csv_rows <- pure (process_items_to_csv_rows repr items) ;;
  write_csv output_file csv_rows.

Definition ORG : string := "conda".
Definition PROJECT_NUMBER : Z := 22.
Definition OUTPUT_FILE : string := "conda_project_issues.csv".

(** [main] for a given exporter class: [init] is its constructor, which
    checks the authentication and gives the object.  The result is the
    exit code of the process: [sys.exit(1)] after any [Exception], zero
    when [main] returns. *)
Definition main_of (init : io T (exporter T)) (fuel : nat) : io (world T) Z :=
  fun w =>
    match (exporter <- on_tool init ;;
           export_to_csv exporter fuel ORG PROJECT_NUMBER OUTPUT_FILE) w with
    | (Return _, w') => (Return 0%Z, w')
    | (Raise _, w') => (Return 1%Z, w')
    | (OutOfFuel, w') => (OutOfFuel, w')
    end.

End Orchestrator.

(** ** The transport adapter: [_verify_gh_auth], [_make_graphql_request] *)

(** What starting an executable gives: it is not there, or it runs and
    exits with a code, having written to standard output and error. *)
Inductive process : Type :=
| NotFound
| Exited (returncode : Z) (stdout stderr : string).

Section Transport.

Context {T : Type}.

(** The [gh] executable: given its arguments and standard input. *)
Variable gh : list string -> option string -> T -> process * T.

(** [json.dumps], and [json.loads], whose failure is a [JSONDecodeError]
    with the given text. *)
Variable json_dumps : pyval -> string.
Variable json_loads : string -> string + pyval.

Variable repr : pyval -> string.

(** [subprocess.run(['gh', ...], input=..., text=True, capture_output=True,
    check=True)], giving the standard output. *)
Definition subprocess_run (args : list string) (input : option string)
  : io T string :=
  fun t => match gh args input t with
           | (NotFound, t') => (Raise FileNotFoundError, t')
           | (Exited returncode stdout stderr, t') =>
               if Z.eqb returncode 0 then (Return stdout, t')
               else (Raise (CalledProcessError returncode stdout stderr), t')
           end.

Definition verify_gh_auth : io T unit :=
  fun t =>
    match subprocess_run ["gh"; "auth"; "status"] None t with
    | (Raise FileNotFoundError, t') =>
        (Raise (Exception "GitHub CLI not found. Please install it:
  macOS: brew install gh
  Ubuntu/Debian: sudo apt install gh
  Windows: winget install GitHub.cli"), t')
    | (Raise (CalledProcessError _ _ _), t') =>
        (Raise (Exception "GitHub CLI not authenticated. Please run:
  gh auth login"), t')
    | (Return _, t') => (Return tt, t')
    | (Raise e, t') => (Raise e, t')
    | (OutOfFuel, t') => (OutOfFuel, t')
    end.

Definition make_graphql_request (query : string) (variables : pyval)
  : io T pyval :=
  let payload := PDict [("query", PStr query); ("variables", variables)] in
  fun t =>
    match (stdout <- subprocess_run ["gh"; "api"; "graphql"; "--input"; "-"]
                       (Some (json_dumps payload)) ;;
           data <- pure (match json_loads stdout with
                         | inl msg => Raise (JSONDecodeError msg)
                         | inr data => Return data
                         end) ;;
           has_errors <- pure (contains "errors" data) ;;
           if has_errors : bool then
             errors <- pure (subscript data "errors") ;;
             pure (Raise (Exception ("GraphQL errors: " ++ str repr errors)))
           else pure (subscript data "data")) t with
    | (Raise (CalledProcessError _ _ stderr), t') =>
        (Raise (Exception ("gh CLI request failed: " ++ stderr)), t')
    | (Raise (JSONDecodeError msg), t') =>
        (Raise (Exception ("Failed to parse GraphQL response: " ++ msg)), t')
    | r => r
    end.

(** The class: its methods, and its constructor [__init__]. *)
Definition GitHubProjectExporter : exporter T :=
  {| _verify_gh_auth := verify_gh_auth;
     _make_graphql_request := make_graphql_request |}.

Definition init : io T (exporter T) :=
  _verify_gh_auth GitHubProjectExporter ;;; ret GitHubProjectExporter.

Definition main (fuel : nat) : io (world T) Z := main_of repr init fuel.

End Transport.

(** ** The data model of the project board

    The entities the query asks for: an item with its field values and,
    unless it is a draft, the issue or pull request linked to it. *)

Inductive number : Type :=
| Int (z : Z)
| Float (text : string).

Inductive field_payload : Type :=
| NumberValue (n : number)
| TextValue (text : string)
| NoValue.

Record FieldValue : Type :=
  { field_name : string;
    payload : field_payload }.

Record Content : Type :=
  { content_number : Z;
    content_title : string;
    content_body : option string;
    content_url : string;
    content_labels : list string }.

Record ProjectItem : Type :=
  { item_id : string;
    item_fieldValues : list FieldValue;
    item_content : option Content }.

(** *** How the API's JSON holds the entities

    The relations below say when a value as [json.loads] gives it holds an
    entity.  They read dicts by key only, so other keys and any key order
    are allowed. *)

Definition number_value (n : number) : pyval :=
  match n with
  | Int z => PInt z
  | Float text => PFloat text
  end.

Definition represents_label (node : pyval) (name : string) : Prop :=
  exists d, node = PDict d /\ lookup "name" d = Some (PStr name).

Definition represents_field (node : pyval) (f : FieldValue) : Prop :=
  exists d fd,
    node = PDict d /\
    lookup "field" d = Some (PDict fd) /\
    lookup "name" fd = Some (PStr (field_name f)) /\
    match payload f with
    | NumberValue n => lookup "number" d = Some (number_value n)
    | TextValue text =>
        lookup "number" d = None /\ lookup "text" d = Some (PStr text)
    | NoValue => lookup "number" d = None /\ lookup "text" d = None
    end.

(** The nodes of [fieldValues]: a text or number value holds a
    [FieldValue]; of a value of another kind the query selects nothing,
    and its node carries no ["field"]. *)
Inductive represents_fields : list pyval -> list FieldValue -> Prop :=
| fields_nil : represents_fields [] []
| fields_other d nodes fs :
    lookup "field" d = None ->
    represents_fields nodes fs ->
    represents_fields (PDict d :: nodes) fs
| fields_cons node nodes f fs :
    represents_field node f ->
    represents_fields nodes fs ->
    represents_fields (node :: nodes) (f :: fs).

Definition represents_content (d : list (string * pyval)) (c : Content) : Prop :=
  lookup "number" d = Some (PInt (content_number c)) /\
  lookup "title" d = Some (PStr (content_title c)) /\
  match content_body c with
  | Some body => lookup "body" d = Some (PStr body)
  | None => lookup "body" d = None \/ lookup "body" d = Some PNone
  end /\
  lookup "url" d = Some (PStr (content_url c)) /\
  exists ld nodes,
    lookup "labels" d = Some (PDict ld) /\
    lookup "nodes" ld = Some (PList nodes) /\
    Forall2 represents_label nodes (content_labels c).

(** An item without content comes with no ["content"], with [null], or
    with an empty object (a draft: neither fragment of the query applies).
    The identifier, which the flattener does not read, is not asked for. *)
Definition represents (item : pyval) (it : ProjectItem) : Prop :=
  exists d fvd nodes,
    item = PDict d /\
    lookup "fieldValues" d = Some (PDict fvd) /\
    lookup "nodes" fvd = Some (PList nodes) /\
    represents_fields nodes (item_fieldValues it) /\
    match item_content it with
    | Some c => exists cd, lookup "content" d = Some (PDict cd) /\
                           represents_content cd c
    | None => lookup "content" d = None \/
              lookup "content" d = Some PNone \/
              lookup "content" d = Some (PDict [])
    end.

(** *** The rows the entities stand for *)

(** The name test of the flattener: ["Story Points"] in any case. *)
Definition named_story_points (f : FieldValue) : bool :=
  String.eqb (lower (field_name f)) "story points".

Definition number_text (n : number) : string :=
  match n with
  | Int z => str_of_Z z
  | Float text => text
  end.

Definition payload_text (p : field_payload) : string :=
  match p with
  | NumberValue n => number_text n
  | TextValue text => text
  | NoValue => ""
  end.

(** The story points of an item: the text of the first field so named,
    whatever it carries. *)
Definition story_points_text (fs : list FieldValue) : string :=
  match find named_story_points fs with
  | Some f => payload_text (payload f)
  | None => ""
  end.

Definition row_title (fs : list FieldValue) (c : Content) : string :=
  let points := story_points_text fs in
  if String.eqb points "" then content_title c
  else "[" ++ points ++ "] " ++ content_title c.

Definition row_type (c : Content) : string :=
  if existsb (String.eqb "Epic") (content_labels c) then "Epic" else "Story".

(** Line feeds and carriage returns, each turned into one space. *)
Definition unbreak_ascii (a : ascii) : ascii :=
  if Ascii.eqb a newline || Ascii.eqb a carriage_return then space else a.

Fixpoint unbreak (s : string) : string :=
  match s with
  | EmptyString => EmptyString
  | String a s' => String (unbreak_ascii a) (unbreak s')
  end.

Definition row_description (c : Content) : string :=
  match content_body c with
  | Some body => unbreak body
  | None => ""
  end.

Definition row_of (fs : list FieldValue) (c : Content) : csv_row :=
  [PStr (row_type c); PStr (row_title fs c);
   PStr (str_of_Z (content_number c)); PStr (content_url c);
   PStr (row_description c); PStr ""].

Definition item_row (it : ProjectItem) : option csv_row :=
  option_map (row_of (item_fieldValues it)) (item_content it).

Definition has_content (it : ProjectItem) : bool :=
  match item_content it with Some _ => true | None => false end.

(** The rows of a list of items: one for each item with content, in the
    order of the items. *)
Fixpoint rows_of (its : list ProjectItem) : list csv_row :=
  match its with
  | [] => []
  | it :: rest =>
      match item_row it with
      | Some row => row :: rows_of rest
      | None => rows_of rest
      end
  end.

(** *** The title as claim C2 words it

    The field that decides is the first one that is named ["Story Points"]
    and carries a non-empty value. *)
Definition named_and_valued (f : FieldValue) : bool :=
  named_story_points f && negb (String.eqb (payload_text (payload f)) "").

Definition claimed_title (fs : list FieldValue) (c : Content) : string :=
  match find named_and_valued fs with
  | Some f => "[" ++ payload_text (payload f) ++ "] " ++ content_title c
  | None => content_title c
  end.

(** ** A scripted transport

    The mock of the unit tests: it answers the queries from a script, one
    entry for each call, and records every call made. *)
Record mock : Type :=
  { script : list (outcome pyval);
    calls : list (string * pyval) }.

Definition mock_request (query : string) (variables : pyval) : io mock pyval :=
  fun m =>
    let calls' := calls m ++ [(query, variables)] in
    match script m with
    | [] => (Raise (Exception "no response left"),
             {| script := []; calls := calls' |})
    | r :: rest => (r, {| script := rest; calls := calls' |})
    end.

Definition mock_exporter : exporter mock :=
  {| _verify_gh_auth := ret tt;
     _make_graphql_request := mock_request |}.

(** A page of the items connection, as the API answers the query. *)
Definition page (nodes : list pyval) (hasNextPage endCursor : pyval) : pyval :=
  PDict [("organization",
    PDict [("projectV2",
      PDict [("items",
        PDict [("pageInfo", PDict [("hasNextPage", hasNextPage);
                                   ("endCursor", endCursor)]);
               ("nodes", PList nodes)])])])].

(** The variables of the query sent with a given cursor. *)
Definition query_variables (org : string) (project_number : Z) (cursor : pyval)
  : pyval :=
  PDict [("org", PStr org); ("number", PInt project_number); ("cursor", cursor)].

(** What a page of the script carries, and the answer of the mock for it. *)
Record page_data : Type :=
  { page_nodes : list pyval;
    page_hasNextPage : pyval;
    page_endCursor : pyval }.

Definition answer (p : page_data) : outcome pyval :=
  Return (page (page_nodes p) (page_hasNextPage p) (page_endCursor p)).

(** The calls the paginator makes for a list of cursors. *)
Definition calls_with (org : string) (project_number : Z) (cursors : list pyval)
  : list (string * pyval) :=
  map (fun cursor => (items_query, query_variables org project_number cursor))
      cursors.

(** A page as the paginator reads it, whatever else the answer holds. *)
Definition is_page (data : pyval) (nodes : list pyval)
    (hasNextPage endCursor : pyval) : Prop :=
  exists d o p i pi,
    data = PDict d /\
    lookup "organization" d = Some (PDict o) /\
    lookup "projectV2" o = Some (PDict p) /\
    lookup "items" p = Some (PDict i) /\
    lookup "nodes" i = Some (PList nodes) /\
    lookup "pageInfo" i = Some (PDict pi) /\
    lookup "hasNextPage" pi = Some hasNextPage /\
    lookup "endCursor" pi = Some endCursor.

(** The fetch of the [n]-th page from [cursor] on fails with [e]: the
    pages before it came with a true [hasNextPage], and the request for
    this one raised [e]. *)
Inductive fetch_fails {T} (self : exporter T) (org : string)
    (project_number : Z) : nat -> pyval -> T -> exn -> T -> Prop :=
| fails_here cursor t e t' :
    _make_graphql_request self items_query
      (query_variables org project_number cursor) t = (Raise e, t') ->
    fetch_fails self org project_number 1 cursor t e t'
| fails_later n cursor t data t' nodes hasNextPage endCursor e t'' :
    _make_graphql_request self items_query
      (query_variables org project_number cursor) t = (Return data, t') ->
    is_page data nodes hasNextPage endCursor ->
    truthy hasNextPage = true ->
    fetch_fails self org project_number n endCursor t' e t'' ->
    fetch_fails self org project_number (S n) cursor t e t''.
(** ** The API's answer for an entity

    The JSON the query gives for an item, with the keys in the order of the
    query document; an item without content comes with [null]. *)

Definition encode_field (f : FieldValue) : pyval :=
  let field := ("field", PDict [("name", PStr (field_name f))]) in
  match payload f with
  | NumberValue n => PDict [("number", number_value n); field]
  | TextValue text => PDict [("text", PStr text); field]
  | NoValue => PDict [field]
  end.

Definition encode_label (name : string) : pyval := PDict [("name", PStr name)].

Definition encode_content (c : Content) : pyval :=
  PDict [("number", PInt (content_number c));
         ("title", PStr (content_title c));
         ("body", match content_body c with
                  | Some body => PStr body
                  | None => PNone
                  end);
         ("url", PStr (content_url c));
         ("labels", PDict [("nodes", PList (map encode_label (content_labels c)))])].

Definition encode_item (it : ProjectItem) : pyval :=
  PDict [("id", PStr (item_id it));
         ("fieldValues",
          PDict [("nodes", PList (map encode_field (item_fieldValues it)))]);
         ("content", match item_content it with
                     | Some c => encode_content c
                     | None => PNone
                     end)].

(** ** Items with entries left out

    An item with content of which any of the entries read by the flattener
    may be missing: [None] stands for a key that is not there, and for the
    body also for [null]. *)
Record sparse : Type :=
  { sparse_number : option Z;
    sparse_title : option string;
    sparse_body : option string;
    sparse_url : option string;
    sparse_labels : option (list string);
    sparse_fieldValues : option (list FieldValue) }.

Definition entry (d : list (string * pyval)) (key : string) (v : option pyval)
  : Prop :=
  lookup key d = v.

Definition represents_sparse (item : pyval) (s : sparse) : Prop :=
  exists d cd,
    item = PDict d /\
    lookup "content" d = Some (PDict cd) /\
    cd <> [] /\
    entry cd "number" (option_map PInt (sparse_number s)) /\
    entry cd "title" (option_map PStr (sparse_title s)) /\
    match sparse_body s with
    | Some body => lookup "body" cd = Some (PStr body)
    | None => lookup "body" cd = None \/ lookup "body" cd = Some PNone
    end /\
    entry cd "url" (option_map PStr (sparse_url s)) /\
    match sparse_labels s with
    | Some names => exists ld nodes,
        lookup "labels" cd = Some (PDict ld) /\
        lookup "nodes" ld = Some (PList nodes) /\
        Forall2 represents_label nodes names
    | None => lookup "labels" cd = None
    end /\
    match sparse_fieldValues s with
    | Some fs => exists fvd nodes,
        lookup "fieldValues" d = Some (PDict fvd) /\
        lookup "nodes" fvd = Some (PList nodes) /\
        represents_fields nodes fs
    | None => lookup "fieldValues" d = None
    end.

Definition or_empty (s : option string) : string :=
  match s with Some s => s | None => "" end.

(** The row with the empty string for what is missing. *)
Definition sparse_row (s : sparse) : csv_row :=
  let c := {| content_number := 0;
              content_title := or_empty (sparse_title s);
              content_body := sparse_body s;
              content_url := or_empty (sparse_url s);
              content_labels := match sparse_labels s with
                                | Some names => names
                                | None => []
                                end |} in
  let fs := match sparse_fieldValues s with Some fs => fs | None => [] end in
  [PStr (row_type c); PStr (row_title fs c);
   PStr (or_empty (option_map str_of_Z (sparse_number s)));
   PStr (content_url c); PStr (row_description c); PStr ""].

(** ** Sample data *)

(** A stand-in for [repr] where no list or dict is printed. *)
Definition unused_repr (v : pyval) : string := "".

Definition three_lines : string :=
  "Line1" ++ String newline ("Line2" ++
    String carriage_return (String newline "Line3")).

Definition sample_content : Content :=
  {| content_number := 12;
     content_title := "Fix login";
     content_body := Some three_lines;
     content_url := "https://github.com/conda/conda/issues/12";
     content_labels := ["bug"; "epic"] |}.

(** An issue with five story points, under a name in capitals, after the
    value of a field of another name. *)
Definition sample_item : ProjectItem :=
  {| item_id := "PVTI_1";
     item_fieldValues :=
       [{| field_name := "Title"; payload := TextValue "Fix login" |};
        {| field_name := "STORY POINTS"; payload := NumberValue (Int 5) |}];
     item_content := Some sample_content |}.

Definition draft_item : ProjectItem :=
  {| item_id := "PVTI_2"; item_fieldValues := []; item_content := None |}.

(** An issue whose first field named Story Points carries an empty text and
    whose second one carries five. *)
Definition twice_pointed_item : ProjectItem :=
  {| item_id := "PVTI_3";
     item_fieldValues :=
       [{| field_name := "Story Points"; payload := TextValue "" |};
        {| field_name := "Story Points"; payload := NumberValue (Int 5) |}];
     item_content := Some sample_content |}.

(** An issue whose first field named Story Points carries zero. *)
Definition zero_pointed_item : ProjectItem :=
  {| item_id := "PVTI_4";
     item_fieldValues :=
       [{| field_name := "Story points"; payload := NumberValue (Int 0) |}];
     item_content := Some sample_content |}.

(** Items with content in which an entry is [null], as raw JSON. *)
Definition null_labels_item : pyval :=
  PDict [("fieldValues", PDict [("nodes", PList [])]);
         ("content", PDict [("number", PInt 12); ("title", PStr "Fix login");
                            ("body", PStr "text"); ("url", PStr "u");
                            ("labels", PNone)])].

Definition null_fieldValues_item : pyval :=
  PDict [("fieldValues", PNone);
         ("content", PDict [("number", PInt 12); ("title", PStr "Fix login");
                            ("body", PStr "text"); ("url", PStr "u");
                            ("labels", PDict [("nodes", PList [])])])].

Definition null_scalars_item : pyval :=
  PDict [("fieldValues", PDict [("nodes", PList [])]);
         ("content", PDict [("number", PNone); ("title", PNone);
                            ("body", PNone); ("url", PNone);
                            ("labels", PDict [("nodes", PList [])])])].

(** An item whose content has none of the entries the flattener reads. *)
Definition bare_item : pyval :=
  PDict [("id", PStr "PVTI_5"); ("content", PDict [("id", PStr "I_5")])].

Definition bare_sparse : sparse :=
  {| sparse_number := None; sparse_title := None; sparse_body := None;
     sparse_url := None; sparse_labels := None; sparse_fieldValues := None |}.

(** Items told apart by their identifiers, [count] of them from [first] on. *)
Definition numbered_items (first count : nat) : list pyval :=
  map (fun n => PDict [("id", PStr ("PVTI_" ++ str_of_Z (Z.of_nat n)));
                       ("content", PNone)])
      (seq first count).

(** Three pages of 100, 100 and 7 items. *)
Definition three_pages : list page_data :=
  [{| page_nodes := numbered_items 0 100;
      page_hasNextPage := PBool true; page_endCursor := PStr "Y3Vyc29yOjEwMA" |};
   {| page_nodes := numbered_items 100 100;
      page_hasNextPage := PBool true; page_endCursor := PStr "Y3Vyc29yOjIwMA" |}].

Definition third_page : page_data :=
  {| page_nodes := numbered_items 200 7;
     page_hasNextPage := PBool false; page_endCursor := PNone |}.

(** A transport whose second answer of three is a failure. *)
Definition failing_script : list (outcome pyval) :=
  [answer {| page_nodes := numbered_items 0 100;
             page_hasNextPage := PBool true;
             page_endCursor := PStr "Y3Vyc29yOjEwMA" |};
   Raise (Exception "gh CLI request failed: HTTP 502");
   answer third_page].

(** A [gh] that answers every call with the same output, a [json.dumps]
    that writes the same text for every value, and a [json.loads] that
    knows two texts. *)
Definition constant_gh (p : process) : list string -> option string -> unit -> process * unit :=
  fun _ _ t => (p, t).

Definition constant_dumps (v : pyval) : string := "{}".

Definition two_texts_loads (text : string) : string + pyval :=
  if String.eqb text "{data}" then
    inr (PDict [("data", PDict [("organization", PNone)])])
  else if String.eqb text "{errors}" then
    inr (PDict [("errors", PStr "NOT_FOUND")])
  else inl "Expecting value: line 1 column 1 (char 0)".

(** ** Rows and items as they are, well-formed or not *)

(** The item has content in the sense of the flattener's test
    [if not content]. *)
Definition has_truthy_content (item : pyval) : bool :=
  match get item "content" PNone with
  | Return content => truthy content
  | _ => false
  end.

Definition is_str (v : pyval) : bool :=
  match v with PStr _ => true | _ => false end.

(** The cells of a row that are strings whatever the item was: Type, one
    of two words, ReferenceId, Description and AcceptanceCriteria, which is
    empty. *)
Definition well_shaped (row : csv_row) : bool :=
  match row with
  | [type; _; reference; _; description; acceptance] =>
      match type with
      | PStr t => String.eqb t "Epic" || String.eqb t "Story"
      | _ => false
      end
      && is_str reference && is_str description
      && match acceptance with PStr a => String.eqb a "" | _ => false end
  | _ => false
  end.

Fixpoint has_line_break (s : string) : bool :=
  match s with
  | EmptyString => false
  | String a s' =>
      Ascii.eqb a newline || Ascii.eqb a carriage_return || has_line_break s'
  end.

(** The Description of a row has no line feed and no carriage return. *)
Definition one_line_description (row : csv_row) : bool :=
  match nth 4 row PNone with
  | PStr description => negb (has_line_break description)
  | _ => false
  end.

(** Two items with the same ["content"] and the same ["fieldValues"],
    whatever other keys they have and in whatever order. *)
Definition same_entries (item item' : pyval) : Prop :=
  exists d d',
    item = PDict d /\ item' = PDict d' /\
    lookup "content" d = lookup "content" d' /\
    lookup "fieldValues" d = lookup "fieldValues" d'.

(** The sample issue with three story points, then field values that are
    no objects at all. *)
Definition garbage_tail_item : pyval :=
  PDict [("fieldValues",
          PDict [("nodes",
                  PList [encode_field {| field_name := "Story Points";
                                         payload := NumberValue (Int 3) |};
                         PNone; PInt 5])]);
         ("content", encode_content sample_content)].

(** The sample item with its keys in another order and two more keys. *)
Definition reordered_item : pyval :=
  PDict [("type", PStr "ISSUE");
         ("content", encode_content sample_content);
         ("fieldValues",
          PDict [("nodes",
                  PList (map encode_field (item_fieldValues sample_item)))]);
         ("isArchived", PBool false)].

(** ** Runs of the paginator on any transport *)

(** A page with a false [hasNextPage]; its [endCursor] is not asked for. *)
Definition is_last_page (data : pyval) (nodes : list pyval) : Prop :=
  exists d o p i pi hasNextPage,
    data = PDict d /\
    lookup "organization" d = Some (PDict o) /\
    lookup "projectV2" o = Some (PDict p) /\
    lookup "items" p = Some (PDict i) /\
    lookup "nodes" i = Some (PList nodes) /\
    lookup "pageInfo" i = Some (PDict pi) /\
    lookup "hasNextPage" pi = Some hasNextPage /\
    truthy hasNextPage = false.

(** The transport answers [n] requests from [cursor] on with pages that
    hold [items] in all, the last of them with a false [hasNextPage]. *)
Inductive fetches {T} (self : exporter T) (org : string)
    (project_number : Z) : nat -> pyval -> T -> list pyval -> T -> Prop :=
| fetches_last cursor t data t' nodes :
    _make_graphql_request self items_query
      (query_variables org project_number cursor) t = (Return data, t') ->
    is_last_page data nodes ->
    fetches self org project_number 1 cursor t nodes t'
| fetches_more n cursor t data t' nodes hasNextPage endCursor items t'' :
    _make_graphql_request self items_query
      (query_variables org project_number cursor) t = (Return data, t') ->
    is_page data nodes hasNextPage endCursor ->
    truthy hasNextPage = true ->
    fetches self org project_number n endCursor t' items t'' ->
    fetches self org project_number (S n) cursor t (nodes ++ items) t''.

(** A transport that has one more page after every page; its state counts
    the requests. *)
Definition endless_exporter : exporter nat :=
  {| _verify_gh_auth := ret tt;
     _make_graphql_request := fun _ _ n =>
       (Return (page [] (PBool true) (PStr "next")), S n) |}.


(** A board of one page whose second item has a null "labels". *)
Definition broken_board_script : list (outcome pyval) :=
  [answer {| page_nodes := [encode_item sample_item; null_labels_item];
             page_hasNextPage := PBool false;
             page_endCursor := PNone |}].



(** The two texts of the authentication check. *)
Definition not_found_message : string :=
  "GitHub CLI not found. Please install it:
  macOS: brew install gh
  Ubuntu/Debian: sudo apt install gh
  Windows: winget install GitHub.cli".

Definition not_authenticated_message : string :=
  "GitHub CLI not authenticated. Please run:
  gh auth login".


(** * Properties *)

(** ** Helper lemmas: strings and numbers *)

Lemma str_of_Z_nonempty (z : Z) : str_of_Z z <> "".
Proof.
  unfold str_of_Z.
  destruct (Z.to_int z) as [d | d]; simpl.
  - destruct d; discriminate.
  - discriminate.
Qed.

Lemma replace_unbreak (s : string) :
  replace carriage_return space (replace newline space s) = unbreak s.
Proof.
  induction s as [| a s IH]; simpl; [reflexivity |].
  rewrite IH. f_equal.
  unfold unbreak_ascii.
  destruct (Ascii.eqb a newline) eqn:En; simpl.
  - reflexivity.
  - reflexivity.
Qed.

Lemma unbreak_length (s : string) : String.length (unbreak s) = String.length s.
Proof. induction s; simpl; congruence. Qed.

Lemma existsb_Epic (ls : list string) :
  existsb (fun x => match x with PStr s => String.eqb s "Epic" | _ => false end)
    (map PStr ls) = existsb (String.eqb "Epic") ls.
Proof.
  induction ls as [| l ls IH]; simpl; [reflexivity |].
  rewrite IH, (String.eqb_sym l). reflexivity.
Qed.

(** ** Helper lemmas: dict access *)

Lemma get_present d key v default :
  lookup key d = Some v -> get (PDict d) key default = Return v.
Proof. intros H. unfold get. rewrite H. reflexivity. Qed.

Lemma get_missing d key default :
  lookup key d = None -> get (PDict d) key default = Return default.
Proof. intros H. unfold get. rewrite H. reflexivity. Qed.

Lemma subscript_present d key v :
  lookup key d = Some v -> subscript (PDict d) key = Return v.
Proof. intros H. unfold subscript. rewrite H. reflexivity. Qed.

Lemma truthy_dict d key v : lookup key d = Some v -> truthy (PDict d) = true.
Proof. destruct d; [discriminate | reflexivity]. Qed.

(** One step of a run: the access whose result [H] gives. *)
Ltac access H :=
  first [ rewrite (get_present _ _ _ _ H)
        | rewrite (get_missing _ _ _ H)
        | rewrite (subscript_present _ _ _ H) ];
  cbn [outcome_bind bind ret outcome_Monad].

(** ** Helper lemmas: the flattener on well-formed items *)

Section FlattenerLemmas.

Variable repr : pyval -> string.

Lemma label_names_represents nodes names :
  Forall2 represents_label nodes names ->
  label_names nodes = Return (map PStr names).
Proof.
  induction 1 as [| node name nodes names [d [-> Hname]] _ IH]; simpl.
  - reflexivity.
  - rewrite Hname. simpl. rewrite IH. reflexivity.
Qed.

Lemma field_values_loop_other d nodes sp :
  lookup "field" d = None ->
  field_values_loop repr (PDict d :: nodes) sp = field_values_loop repr nodes sp.
Proof. intros H. simpl. rewrite H. reflexivity. Qed.

Lemma case_story_points_represents node f sp :
  represents_field node f ->
  case_story_points repr node sp =
  Return (match payload f with
          | NoValue => sp
          | p => PStr (payload_text p)
          end).
Proof.
  intros (d & fd & -> & _ & _ & Hp).
  unfold case_story_points. simpl.
  destruct (payload f) as [n | text |].
  - rewrite Hp. destruct n; reflexivity.
  - destruct Hp as [Hn Ht]. rewrite Hn, Ht. reflexivity.
  - destruct Hp as [Hn Ht]. rewrite Hn, Ht. reflexivity.
Qed.

#[local] Arguments case_story_points : simpl never.

Lemma field_values_loop_represents nodes fs :
  represents_fields nodes fs ->
  field_values_loop repr nodes (PStr "") = Return (PStr (story_points_text fs)).
Proof.
  induction 1 as [| d nodes fs Hd _ IH | node nodes f fs Hf _ IH].
  - reflexivity.
  - rewrite field_values_loop_other by assumption. exact IH.
  - pose proof (case_story_points_represents node f (PStr "") Hf) as Hcase.
    destruct Hf as (d & fd & -> & Hfield & Hname & _).
    unfold story_points_text. simpl find. unfold named_story_points at 1.
    cbn [field_values_loop]. unfold get. rewrite Hfield. cbn.
    rewrite Hname. cbn.
    destruct (String.eqb (lower (field_name f)) "story points").
    + rewrite Hcase. destruct (payload f); reflexivity.
    + exact IH.
Qed.

Lemma item_to_row_represents item it :
  represents item it -> item_to_row repr item = Return (item_row it).
Proof.
  intros (d & fvd & nodes & -> & Hfv & Hnodes & Hfields & Hcontent).
  unfold item_row, item_to_row. cbn [bind ret outcome_Monad].
  destruct (item_content it) as [c |]; cbn [option_map].
  - destruct Hcontent as (cd & Hc & Hnum & Htitle & Hbody & Hurl &
                          ld & lnodes & Hlabels & Hlnodes & Hnames).
    access Hc. rewrite (truthy_dict _ _ _ Hnum). cbn [negb].
    access Hnum. access Htitle.
    assert (Hb : exists b, get (PDict cd) "body" PNone = Return b /\
                 py_or b (PStr "") =
                 PStr (match content_body c with Some s => s | None => "" end)).
    { destruct (content_body c) as [s |].
      - exists (PStr s). split; [apply get_present, Hbody |].
        unfold py_or. simpl. destruct s; reflexivity.
      - exists PNone. split; [| reflexivity].
        destruct Hbody as [Hb | Hb];
          [apply get_missing | apply get_present]; exact Hb. }
    destruct Hb as (b & -> & Hb). cbn [outcome_bind]. rewrite Hb.
    access Hurl. access Hlabels. access Hlnodes.
    assert (Hl : (if truthy (PList lnodes)
                  then outcome_bind (subscript (PDict cd) "labels")
                         (fun l => outcome_bind (subscript l "nodes")
                            (fun nodes0 => outcome_bind (iterate nodes0)
                               (fun nodes1 => label_names nodes1)))
                  else Return []) = Return (map PStr (content_labels c))).
    { destruct lnodes as [| n lnodes].
      - inversion Hnames. reflexivity.
      - cbn [truthy]. access Hlabels. access Hlnodes. cbn [iterate outcome_bind].
        apply label_names_represents. exact Hnames. }
    rewrite Hl. cbn [outcome_bind contains].
    access Hfv. access Hnodes. cbn [iterate outcome_bind].
    rewrite (field_values_loop_represents _ _ Hfields). cbn [outcome_bind].
    cbn [py_replace outcome_bind]. rewrite replace_unbreak, existsb_Epic.
    unfold row_of, row_type, row_title, row_description. cbn [truthy str].
    do 2 f_equal.
    destruct (existsb (String.eqb "Epic") (content_labels c)),
      (String.eqb (story_points_text (item_fieldValues it)) ""),
      (content_body c); reflexivity.
  - assert (Hn : exists v, get (PDict d) "content" PNone = Return v /\
                           truthy v = false).
    { destruct Hcontent as [H | [H | H]].
      - exists PNone. split; [apply get_missing, H | reflexivity].
      - exists PNone. split; [apply get_present, H | reflexivity].
      - exists (PDict []). split; [apply get_present, H | reflexivity]. }
    destruct Hn as (v & -> & Hv). cbn [outcome_bind]. rewrite Hv. reflexivity.
Qed.

Lemma items_loop_represents items its :
  Forall2 represents items its ->
  forall csv_rows,
    items_loop repr items csv_rows = Return (csv_rows ++ rows_of its).
Proof.
  induction 1 as [| item it items its Hrep _ IH]; intros csv_rows.
  - simpl. rewrite app_nil_r. reflexivity.
  - cbn [items_loop bind outcome_Monad].
    rewrite (item_to_row_represents _ _ Hrep). cbn [outcome_bind rows_of].
    destruct (item_row it) as [row |].
    + rewrite IH, <- app_assoc. reflexivity.
    + apply IH.
Qed.

Lemma process_represents items its :
  Forall2 represents items its ->
  process_items_to_csv_rows repr items = Return (rows_of its).
Proof. intros H. apply (items_loop_represents _ _ H []). Qed.

Lemma rows_of_length its :
  List.length (rows_of its) = List.length (filter has_content its).
Proof.
  induction its as [| it its IH]; [reflexivity |].
  unfold has_content, item_row in *. simpl.
  unfold item_row. destruct (item_content it); simpl; congruence.
Qed.

End FlattenerLemmas.

(** ** Helper lemmas: the API's answers hold the entities *)

Lemma encode_label_represents names :
  Forall2 represents_label (map encode_label names) names.
Proof.
  induction names as [| name names IH]; constructor; [| exact IH].
  exists [("name", PStr name)]. split; reflexivity.
Qed.

Lemma encode_field_represents f : represents_field (encode_field f) f.
Proof.
  unfold represents_field, encode_field.
  destruct (payload f); eexists; eexists;
    (split; [reflexivity |]); repeat split; reflexivity.
Qed.

Lemma encode_fields_represent fs :
  represents_fields (map encode_field fs) fs.
Proof.
  induction fs as [| f fs IH]; simpl.
  - constructor.
  - apply fields_cons; [apply encode_field_represents | exact IH].
Qed.

Lemma encode_item_represents it : represents (encode_item it) it.
Proof.
  unfold represents, encode_item.
  eexists; eexists; eexists. split; [reflexivity |].
  repeat (split; [reflexivity |]).
  split; [apply encode_fields_represent |].
  destruct (item_content it) as [c |].
  - eexists. split; [reflexivity |].
    unfold represents_content.
    repeat (split; [reflexivity |]).
    split; [destruct (content_body c); [reflexivity | right; reflexivity] |].
    split; [reflexivity |].
    eexists; eexists. repeat (split; [reflexivity |]).
    apply encode_label_represents.
  - right. left. reflexivity.
Qed.

Lemma encode_items_represent its : Forall2 represents (map encode_item its) its.
Proof.
  induction its; constructor; [apply encode_item_represents | assumption].
Qed.

(** ** Helper lemmas: the first field named Story Points *)

Lemma find_first {A} (p : A -> bool) before x after :
  (forall y, In y before -> p y = false) ->
  p x = true ->
  find p (before ++ x :: after) = Some x.
Proof.
  intros Hbefore Hx.
  induction before as [| y before IH]; simpl.
  - rewrite Hx. reflexivity.
  - rewrite (Hbefore y) by (left; reflexivity).
    apply IH. intros z Hz. apply Hbefore. right. exact Hz.
Qed.

Lemma find_nowhere {A} (p : A -> bool) l :
  (forall y, In y l -> p y = false) -> find p l = None.
Proof.
  intros H. induction l as [| y l IH]; simpl; [reflexivity |].
  rewrite (H y) by (left; reflexivity).
  apply IH. intros z Hz. apply H. right. exact Hz.
Qed.

Lemma story_points_text_first before f after :
  (forall g, In g before -> named_story_points g = false) ->
  named_story_points f = true ->
  story_points_text (before ++ f :: after) = payload_text (payload f).
Proof.
  intros Hb Hf. unfold story_points_text.
  rewrite (find_first _ _ _ _ Hb Hf). reflexivity.
Qed.

Lemma story_points_text_nowhere fs :
  (forall g, In g fs -> named_story_points g = false) ->
  story_points_text fs = "".
Proof.
  intros H. unfold story_points_text. rewrite (find_nowhere _ _ H). reflexivity.
Qed.

(** ** Helper lemmas: one item with content *)

Lemma process_one repr item it c :
  represents item it ->
  item_content it = Some c ->
  process_items_to_csv_rows repr [item] =
  Return [row_of (item_fieldValues it) c].
Proof.
  intros Hrep Hc.
  rewrite (process_represents repr [item] [it]) by (repeat constructor; exact Hrep).
  simpl. unfold item_row. rewrite Hc. reflexivity.
Qed.

Lemma existsb_eqb_In (x : string) (l : list string) :
  existsb (String.eqb x) l = true <-> In x l.
Proof.
  rewrite existsb_exists. split.
  - intros (y & Hy & Heq). apply String.eqb_eq in Heq. subst. exact Hy.
  - intros H. exists x. split; [exact H | apply String.eqb_refl].
Qed.

(** ** The flattener on the items of a board *)

Lemma rows_of_items_with_content its :
  Forall2 (fun row it => item_row it = Some row)
    (rows_of its) (filter has_content its).
Proof.
  induction its as [| it its IH]; [constructor |].
  cbn [rows_of filter].
  destruct (item_row it) as [row |] eqn:Hrow.
  - assert (Hc : has_content it = true).
    { unfold has_content, item_row in *.
      destruct (item_content it); [reflexivity | discriminate]. }
    rewrite Hc. constructor; assumption.
  - assert (Hc : has_content it = false).
    { unfold has_content, item_row in *.
      destruct (item_content it); [discriminate | reflexivity]. }
    rewrite Hc. exact IH.
Qed.

Lemma filter_split_length {A} (p : A -> bool) l :
  List.length l =
  List.length (filter p l) + List.length (filter (fun x => negb (p x)) l).
Proof.
  induction l as [| x l IH]; simpl; [reflexivity |].
  destruct (p x); simpl; lia.
Qed.

(** C5: the flattener drops exactly the items without content and gives
    one row for each other item: the rows are, in the order of the items,
    the rows of the items with content, and their number is the number of
    items less the number of items without content. *)
Theorem rows_are_the_items_with_content repr items its :
  Forall2 represents items its ->
  exists rows,
    process_items_to_csv_rows repr items = Return rows /\
    Forall2 (fun row it => item_row it = Some row)
      rows (filter has_content its) /\
    List.length rows =
    List.length items -
    List.length (filter (fun it => negb (has_content it)) its).
Proof.
  intros Hrep. exists (rows_of its).
  split; [apply process_represents; exact Hrep |].
  split; [apply rows_of_items_with_content |].
  rewrite rows_of_length, (Forall2_length Hrep).
  rewrite (filter_split_length has_content its). lia.
Qed.

Lemma rows_are_the_items_with_content_witness :
  exists rows,
    process_items_to_csv_rows unused_repr
      (map encode_item [draft_item; sample_item; draft_item; zero_pointed_item])
    = Return rows /\
    Forall2 (fun row it => item_row it = Some row)
      rows [sample_item; zero_pointed_item] /\
    List.length rows = 4 - 2.
Proof.
  exact (rows_are_the_items_with_content unused_repr _ _
           (encode_items_represent
              [draft_item; sample_item; draft_item; zero_pointed_item])).
Defined.

(** C3: the Type of the row of an item with content is "Epic" if and only
    if "Epic", letter for letter, is among its labels, and "Story" for any
    other labels, "epic" among them or not. *)
Theorem type_is_epic_iff_labelled_epic repr item it c :
  represents item it ->
  item_content it = Some c ->
  exists row,
    process_items_to_csv_rows repr [item] = Return [row] /\
    (nth 0 row PNone = PStr "Epic" <-> In "Epic" (content_labels c)) /\
    (~ In "Epic" (content_labels c) -> nth 0 row PNone = PStr "Story").
Proof.
  intros Hrep Hc. eexists. split; [exact (process_one repr _ _ _ Hrep Hc) |].
  cbn [row_of nth]. unfold row_type.
  destruct (existsb (String.eqb "Epic") (content_labels c)) eqn:He.
  - apply existsb_eqb_In in He. split; [tauto | contradiction].
  - assert (Hn : ~ In "Epic" (content_labels c)).
    { intros Hin. apply existsb_eqb_In in Hin. congruence. }
    split; [| reflexivity]. split; [discriminate | contradiction].
Qed.

Lemma type_is_epic_iff_labelled_epic_witness :
  exists row,
    process_items_to_csv_rows unused_repr [encode_item sample_item]
    = Return [row] /\
    (nth 0 row PNone = PStr "Epic" <-> In "Epic" ["bug"; "epic"]) /\
    (~ In "Epic" ["bug"; "epic"] -> nth 0 row PNone = PStr "Story").
Proof.
  exact (type_is_epic_iff_labelled_epic unused_repr _ sample_item sample_content
           (encode_item_represents sample_item) eq_refl).
Defined.

(** C4: the Description of the row of an item with content is its body
    with every line feed and every carriage return replaced, one by one,
    by a space, all other characters and the length kept; the body
    "Line1\nLine2\r\nLine3" gives "Line1 Line2  Line3". *)
Theorem description_is_body_without_line_breaks repr item it c body :
  represents item it ->
  item_content it = Some c ->
  content_body c = Some body ->
  exists description,
    process_items_to_csv_rows repr [item] =
    Return [[PStr (row_type c); PStr (row_title (item_fieldValues it) c);
             PStr (str_of_Z (content_number c)); PStr (content_url c);
             PStr description; PStr ""]] /\
    description = unbreak body /\
    String.length description = String.length body /\
    (forall n, String.get n description =
               option_map (fun a => if Ascii.eqb a newline then space
                                    else if Ascii.eqb a carriage_return
                                         then space else a)
                          (String.get n body)) /\
    (body = three_lines -> description = "Line1 Line2  Line3").
Proof.
  intros Hrep Hc Hbody. exists (unbreak body).
  split.
  { rewrite (process_one repr _ _ _ Hrep Hc).
    unfold row_of, row_description. rewrite Hbody. reflexivity. }
  split; [reflexivity |].
  split; [apply unbreak_length |].
  split; [| intros ->; reflexivity].
  clear. induction body as [| a body IH]; intros n; [reflexivity |].
  destruct n as [| n]; simpl.
  - unfold unbreak_ascii.
    destruct (Ascii.eqb a newline), (Ascii.eqb a carriage_return); reflexivity.
  - apply IH.
Qed.

Lemma description_is_body_without_line_breaks_witness :
  exists description,
    process_items_to_csv_rows unused_repr [encode_item sample_item] =
    Return [[PStr "Story"; PStr "[5] Fix login"; PStr "12";
             PStr "https://github.com/conda/conda/issues/12";
             PStr description; PStr ""]] /\
    description = unbreak three_lines /\
    String.length description = 18 /\
    (forall n, String.get n description =
               option_map (fun a => if Ascii.eqb a newline then space
                                    else if Ascii.eqb a carriage_return
                                         then space else a)
                          (String.get n three_lines)) /\
    (three_lines = three_lines -> description = "Line1 Line2  Line3").
Proof.
  exact (description_is_body_without_line_breaks unused_repr _ sample_item
           sample_content three_lines
           (encode_item_represents sample_item) eq_refl eq_refl).
Defined.

(** ** The title and the story points *)

(** C2, as amended: the first field named "Story Points", in any case of
    the letters, decides the Title whether or not it carries a value, and
    no later field is looked at.  The Title is "[<value>] <title>" when
    that field carries a number or a non-empty text, and the title as it
    is when it carries an empty text or nothing, or when no field is so
    named.  A number is shown as [str()] prints it: the integer 5 gives
    "[5] <title>", a float its own text. *)
Theorem title_takes_first_field_named_story_points repr item it c :
  represents item it ->
  item_content it = Some c ->
  exists title : string,
    process_items_to_csv_rows repr [item] =
    Return [[PStr (row_type c); PStr title;
             PStr (str_of_Z (content_number c)); PStr (content_url c);
             PStr (row_description c); PStr ""]] /\
    ((forall g, In g (item_fieldValues it) -> named_story_points g = false) ->
     title = content_title c) /\
    (forall before f after,
       item_fieldValues it = before ++ f :: after ->
       (forall g, In g before -> named_story_points g = false) ->
       lower (field_name f) = "story points" ->
       (payload_text (payload f) = "" -> title = content_title c) /\
       (payload_text (payload f) <> "" ->
        title = ("[" ++ payload_text (payload f) ++ "] " ++ content_title c)%string) /\
       (forall z, payload f = NumberValue (Int z) ->
                  title = ("[" ++ str_of_Z z ++ "] " ++ content_title c)%string) /\
       (payload f = NumberValue (Int 5) -> title = ("[5] " ++ content_title c)%string) /\
       (forall text, payload f = NumberValue (Float text) -> text <> "" ->
                     title = ("[" ++ text ++ "] " ++ content_title c)%string) /\
       (payload f = NoValue -> title = content_title c)).
Proof.
  intros Hrep Hc. exists (row_title (item_fieldValues it) c).
  split; [exact (process_one repr _ _ _ Hrep Hc) |].
  unfold row_title. split.
  - intros Hnone. rewrite (story_points_text_nowhere _ Hnone). reflexivity.
  - intros before f after -> Hbefore Hname.
    assert (Hf : named_story_points f = true).
    { unfold named_story_points. rewrite Hname. reflexivity. }
    rewrite (story_points_text_first _ _ _ Hbefore Hf).
    assert (Hint : forall z, payload f = NumberValue (Int z) ->
              (if String.eqb (payload_text (payload f)) "" then content_title c
               else "[" ++ payload_text (payload f) ++ "] " ++ content_title c)%string
              = ("[" ++ str_of_Z z ++ "] " ++ content_title c)%string).
    { intros z ->. cbn [payload_text number_text].
      destruct (String.eqb_spec (str_of_Z z) ""); [| reflexivity].
      now destruct (str_of_Z_nonempty z). }
    repeat split.
    + intros ->. reflexivity.
    + intros Hne. destruct (String.eqb_spec (payload_text (payload f)) "");
        [contradiction | reflexivity].
    + exact Hint.
    + intros H5. exact (Hint 5%Z H5).
    + intros text -> Hne. cbn [payload_text number_text].
      destruct (String.eqb_spec text ""); [contradiction | reflexivity].
    + intros ->. reflexivity.
Qed.

Lemma title_takes_first_field_named_story_points_witness :
  exists title : string,
    process_items_to_csv_rows unused_repr [encode_item sample_item] =
    Return [[PStr "Story"; PStr title; PStr "12";
             PStr "https://github.com/conda/conda/issues/12";
             PStr "Line1 Line2  Line3"; PStr ""]] /\
    title = "[5] Fix login".
Proof.
  destruct (title_takes_first_field_named_story_points unused_repr _
              sample_item sample_content
              (encode_item_represents sample_item) eq_refl)
    as (title & Hrun & _ & Hfirst).
  exists title. split; [exact Hrun |].
  apply (Hfirst [{| field_name := "Title"; payload := TextValue "Fix login" |}]
           {| field_name := "STORY POINTS"; payload := NumberValue (Int 5) |}
           []).
  - reflexivity.
  - intros g [<- | []]. reflexivity.
  - reflexivity.
  - reflexivity.
Defined.

(** C2 as it is worded fails: with a first field named Story Points that
    carries an empty text and a second one that carries 5, the flattener
    leaves the title as it is, where the claim has "[5] <title>". *)
Lemma title_ignores_later_story_points :
  represents (encode_item twice_pointed_item) twice_pointed_item /\
  (forall repr,
     process_items_to_csv_rows repr [encode_item twice_pointed_item] =
     Return [[PStr "Story"; PStr "Fix login"; PStr "12";
              PStr "https://github.com/conda/conda/issues/12";
              PStr "Line1 Line2  Line3"; PStr ""]]) /\
  claimed_title (item_fieldValues twice_pointed_item) sample_content =
  "[5] Fix login".
Proof.
  split; [apply encode_item_represents |].
  split; [intros repr; reflexivity | reflexivity].
Qed.

(** C9: when the first field named Story Points carries the number 0 the
    Title is "[0] <title>", and when it carries the empty text the Title
    is the title as it is. *)
Theorem zero_points_are_shown repr item it c before f after :
  represents item it ->
  item_content it = Some c ->
  item_fieldValues it = before ++ f :: after ->
  (forall g, In g before -> named_story_points g = false) ->
  named_story_points f = true ->
  exists title : string,
    process_items_to_csv_rows repr [item] =
    Return [[PStr (row_type c); PStr title;
             PStr (str_of_Z (content_number c)); PStr (content_url c);
             PStr (row_description c); PStr ""]] /\
    (payload f = NumberValue (Int 0) -> title = ("[0] " ++ content_title c)%string) /\
    (payload f = TextValue "" -> title = content_title c).
Proof.
  intros Hrep Hc Hfs Hbefore Hf.
  exists (row_title (item_fieldValues it) c).
  split; [exact (process_one repr _ _ _ Hrep Hc) |].
  unfold row_title. rewrite Hfs, (story_points_text_first _ _ _ Hbefore Hf).
  split; intros ->; reflexivity.
Qed.

Lemma zero_points_are_shown_witness :
  exists title : string,
    process_items_to_csv_rows unused_repr [encode_item zero_pointed_item] =
    Return [[PStr "Story"; PStr title; PStr "12";
             PStr "https://github.com/conda/conda/issues/12";
             PStr "Line1 Line2  Line3"; PStr ""]] /\
    (NumberValue (Int 0) = NumberValue (Int 0) -> title = "[0] Fix login") /\
    (NumberValue (Int 0) = TextValue "" -> title = "Fix login").
Proof.
  exact (zero_points_are_shown unused_repr _ zero_pointed_item sample_content
           [] {| field_name := "Story points"; payload := NumberValue (Int 0) |} []
           (encode_item_represents zero_pointed_item) eq_refl eq_refl
           (fun g (H : In g []) => match H with end) eq_refl).
Defined.

(** ** Items with entries left out *)

Lemma item_to_row_sparse repr item s :
  represents_sparse item s ->
  item_to_row repr item = Return (Some (sparse_row s)).
Proof.
  intros (d & cd & -> & Hc & Hcd & Hnum & Htitle & Hbody & Hurl & Hlabels & Hfv).
  unfold entry in *.
  unfold item_to_row. cbn [bind ret outcome_Monad].
  access Hc.
  assert (Ht : truthy (PDict cd) = true) by (destruct cd; [now destruct Hcd | reflexivity]).
  rewrite Ht. cbn [negb].
  assert (En : get (PDict cd) "number" (PStr "") =
               Return (match sparse_number s with
                       | Some n => PInt n | None => PStr "" end)).
  { destruct (sparse_number s); [apply get_present | apply get_missing];
      exact Hnum. }
  assert (Et : get (PDict cd) "title" (PStr "") =
               Return (PStr (or_empty (sparse_title s)))).
  { destruct (sparse_title s); [apply get_present | apply get_missing];
      exact Htitle. }
  assert (Eu : get (PDict cd) "url" (PStr "") =
               Return (PStr (or_empty (sparse_url s)))).
  { destruct (sparse_url s); [apply get_present | apply get_missing];
      exact Hurl. }
  assert (Eb : exists b, get (PDict cd) "body" PNone = Return b /\
               py_or b (PStr "") = PStr (or_empty (sparse_body s))).
  { destruct (sparse_body s) as [body |].
    - exists (PStr body). split; [apply get_present, Hbody |].
      destruct body; reflexivity.
    - exists PNone. split; [| reflexivity].
      destruct Hbody as [Hb | Hb];
        [apply get_missing | apply get_present]; exact Hb. }
  assert (El : forall B (k : list pyval -> outcome B),
            outcome_bind (get (PDict cd) "labels" (PDict []))
              (fun labels_field =>
                 outcome_bind (get labels_field "nodes" PNone)
                   (fun labels_nodes =>
                      outcome_bind
                        (if truthy labels_nodes
                         then outcome_bind (subscript (PDict cd) "labels")
                                (fun l => outcome_bind (subscript l "nodes")
                                   (fun nodes0 => outcome_bind (iterate nodes0)
                                      (fun nodes1 => label_names nodes1)))
                         else Return []) k))
            = k (map PStr (match sparse_labels s with
                           | Some names => names | None => [] end))).
  { intros B k. destruct (sparse_labels s) as [names |].
    - destruct Hlabels as (ld & lnodes & Hl & Hn & Hnames).
      access Hl. access Hn. destruct lnodes as [| n lnodes].
      + inversion Hnames. reflexivity.
      + cbn [truthy]. access Hl. access Hn. cbn [iterate outcome_bind].
        rewrite (label_names_represents _ _ Hnames). reflexivity.
    - access Hlabels. reflexivity. }
  assert (Ef : forall B (k : pyval -> outcome B),
            outcome_bind (get (PDict d) "fieldValues" (PDict []))
              (fun field_values_field =>
                 outcome_bind (get field_values_field "nodes" (PList []))
                   (fun field_values =>
                      outcome_bind (iterate field_values)
                        (fun field_values0 =>
                           outcome_bind
                             (field_values_loop repr field_values0 (PStr ""))
                             k)))
            = k (PStr (story_points_text
                         (match sparse_fieldValues s with
                          | Some fs => fs | None => [] end)))).
  { intros B k. destruct (sparse_fieldValues s) as [fs |].
    - destruct Hfv as (fvd & nodes & Hf & Hn & Hfields).
      access Hf. access Hn. cbn [iterate outcome_bind].
      rewrite (field_values_loop_represents _ _ _ Hfields). reflexivity.
    - access Hfv. reflexivity. }
  rewrite En, Et. cbn [outcome_bind].
  destruct Eb as (b & -> & Hb). cbn [outcome_bind]. rewrite Hb, Eu.
  cbn [outcome_bind]. rewrite El. cbn [contains outcome_bind].
  rewrite Ef. cbn [py_replace outcome_bind].
  rewrite replace_unbreak, existsb_Epic.
  unfold sparse_row, row_type, row_title, row_description.
  cbn [content_labels content_title content_body content_url truthy str].
  do 2 f_equal.
  destruct (existsb (String.eqb "Epic") _), (String.eqb (story_points_text _) ""),
    (sparse_body s), (sparse_number s); reflexivity.
Qed.

(** C10, as amended: an item whose content is a non-empty mapping gives,
    without error, a row of six fields whichever of the entries "labels",
    "fieldValues", "body", "number", "title" and "url" are missing, and
    also when the body is null: the missing data is the empty string, the
    Type "Story" without labels and the Title without prefix without field
    values.  An item whose content is an empty mapping gives no row, as
    one whose content is null or missing. *)
Theorem missing_entries_become_empty :
  (forall repr item s,
     represents_sparse item s ->
     exists type title number url description : string,
       process_items_to_csv_rows repr [item] =
       Return [[PStr type; PStr title; PStr number; PStr url;
                PStr description; PStr ""]] /\
       (sparse_labels s = None -> type = "Story") /\
       (sparse_fieldValues s = None -> title = or_empty (sparse_title s)) /\
       (sparse_title s = None -> sparse_fieldValues s = None -> title = "") /\
       (sparse_number s = None -> number = "") /\
       (sparse_url s = None -> url = "") /\
       (sparse_body s = None -> description = "")) /\
  (forall repr d,
     lookup "content" d = Some (PDict []) \/
     lookup "content" d = Some PNone \/
     lookup "content" d = None ->
     process_items_to_csv_rows repr [PDict d] = Return []).
Proof.
  split.
  - intros repr item s Hs.
    do 5 eexists. split.
    + unfold process_items_to_csv_rows. cbn [items_loop bind outcome_Monad].
      rewrite (item_to_row_sparse repr _ _ Hs). reflexivity.
    + repeat split.
      * intros ->. reflexivity.
      * intros ->. reflexivity.
      * intros -> ->. reflexivity.
      * intros ->. reflexivity.
      * intros ->. reflexivity.
      * unfold row_description. cbn [content_body]. intros ->. reflexivity.
  - intros repr d Hd.
    unfold process_items_to_csv_rows, item_to_row.
    cbn [items_loop bind ret outcome_Monad item_to_row].
    unfold item_to_row. cbn [bind ret outcome_Monad].
    destruct Hd as [H | [H | H]].
    + access H. reflexivity.
    + access H. reflexivity.
    + access H. reflexivity.
Qed.

Lemma missing_entries_become_empty_witness :
  (exists type title number url description : string,
     process_items_to_csv_rows unused_repr [bare_item] =
     Return [[PStr type; PStr title; PStr number; PStr url;
              PStr description; PStr ""]] /\
     type = "Story" /\ title = "" /\ number = "" /\ url = "" /\
     description = "") /\
  process_items_to_csv_rows unused_repr [PDict [("content", PDict [])]]
  = Return [].
Proof.
  split.
  - assert (Hs : represents_sparse bare_item bare_sparse).
    { exists [("id", PStr "PVTI_5"); ("content", PDict [("id", PStr "I_5")])],
             [("id", PStr "I_5")].
      repeat split; try reflexivity. discriminate. left. reflexivity. }
    destruct (proj1 missing_entries_become_empty unused_repr _ _ Hs)
      as (type & title & number & url & description & Hrun & Ht & _ & Hti
          & Hn & Hu & Hd).
    exists type, title, number, url, description.
    repeat split; auto.
  - apply (proj2 missing_entries_become_empty unused_repr).
    left. reflexivity.
Defined.

(** C10 as it is worded fails: a null "labels" or "fieldValues" makes the
    flattener raise, and with a null "number", "title" and "url" the row
    has "None" for the ReferenceId and None, which is no string, for the
    Title and the Link. *)
Lemma null_entries_are_not_missing :
  (forall repr,
     process_items_to_csv_rows repr [null_labels_item] = Raise AttributeError) /\
  (forall repr,
     process_items_to_csv_rows repr [null_fieldValues_item]
     = Raise AttributeError) /\
  (forall repr,
     process_items_to_csv_rows repr [null_scalars_item] =
     Return [[PStr "Story"; PNone; PStr "None"; PNone; PStr ""; PStr ""]]).
Proof. repeat split. Qed.

(** ** The flattener as a pure function *)

Lemma bind_finishes {A B} (c : outcome A) (k : A -> outcome B) :
  finishes c -> (forall a, finishes (k a)) -> finishes (outcome_bind c k).
Proof. destruct c; simpl; auto. Qed.

Lemma get_finishes v key default : finishes (get v key default).
Proof. destruct v; exact I. Qed.

Lemma subscript_finishes v key : finishes (subscript v key).
Proof. destruct v; try exact I. simpl. destruct (lookup key d); exact I. Qed.

Lemma contains_finishes key v : finishes (contains key v).
Proof. destruct v; exact I. Qed.

Lemma iterate_finishes v : finishes (iterate v).
Proof. destruct v; exact I. Qed.

Lemma py_lower_finishes v : finishes (py_lower v).
Proof. destruct v; exact I. Qed.

Lemma py_replace_finishes v old new : finishes (py_replace v old new).
Proof. destruct v; exact I. Qed.

Create HintDb finishes.

#[local] Hint Resolve get_finishes subscript_finishes contains_finishes
  iterate_finishes py_lower_finishes py_replace_finishes : finishes.

Ltac finish :=
  repeat match goal with
    | |- finishes (Return _) => exact I
    | |- finishes (Raise _) => exact I
    | |- finishes (outcome_bind _ _) => apply bind_finishes; [| intro]
    | |- finishes (if ?b then _ else _) => destruct b
    | |- finishes _ => solve [auto with finishes]
    end.

Section Purity.

Variable repr : pyval -> string.

Lemma label_names_finishes nodes : finishes (label_names nodes).
Proof.
  induction nodes as [| node nodes IH]; [exact I |].
  cbn [label_names bind ret outcome_Monad]. finish.
Qed.

Lemma field_values_loop_finishes field_values story_points :
  finishes (field_values_loop repr field_values story_points).
Proof.
  induction field_values as [| field_value rest IH]; [exact I |].
  cbn [field_values_loop bind ret outcome_Monad]. unfold case_story_points.
  cbn [bind ret outcome_Monad]. finish.
Qed.

Lemma item_to_row_finishes item : finishes (item_to_row repr item).
Proof.
  pose proof label_names_finishes. pose proof field_values_loop_finishes.
  unfold item_to_row. cbn [bind ret outcome_Monad]. finish.
Qed.

Lemma items_loop_finishes items csv_rows :
  finishes (items_loop repr items csv_rows).
Proof.
  revert csv_rows. induction items as [| item items IH]; intros csv_rows.
  - exact I.
  - cbn [items_loop bind outcome_Monad].
    apply bind_finishes; [apply item_to_row_finishes |].
    intros [row |]; apply IH.
Qed.

Lemma process_finishes items :
  finishes (process_items_to_csv_rows repr items).
Proof. exact (items_loop_finishes items []). Qed.

End Purity.

(** C8: the flattener is deterministic.  It is a function of the items
    alone that always comes to an end, with rows or with an exception; run
    twice on the same items, in any state of the outside world, it gives
    the same rows both times and leaves the world as it was. *)
Theorem flattener_is_deterministic {T} repr items (w w' : world T) :
  let run : io (world T) (list csv_row) :=
    pure (process_items_to_csv_rows repr items) in
  let twice : io (world T) (list csv_row * list csv_row) :=
    first <- run ;; second <- run ;; ret (first, second) in
  let once : io (world T) (list csv_row * list csv_row) :=
    rows <- run ;; ret (rows, rows) in
  finishes (process_items_to_csv_rows repr items) /\
  twice w = once w /\
  snd (run w) = w /\
  fst (run w) = fst (run w').
Proof.
  cbv zeta. split; [exact (process_finishes repr items) |].
  split; [| split; reflexivity].
  cbn [bind ret io_Monad]. unfold io_bind, pure.
  destruct (process_items_to_csv_rows repr items); reflexivity.
Qed.

(** ** The paginator *)

Lemma page_is_page nodes hasNextPage endCursor :
  is_page (page nodes hasNextPage endCursor) nodes hasNextPage endCursor.
Proof.
  unfold is_page, page. do 5 eexists.
  split; [reflexivity |]. repeat split; reflexivity.
Qed.

Section PaginatorLemmas.

Context {T : Type}.
Variable self : exporter T.
Variables (org : string) (project_number : Z).

(** A turn of the loop whose request is answered by a page. *)
Lemma while_true_page fuel all_items cursor t data t' nodes hasNextPage endCursor :
  _make_graphql_request self items_query
    (query_variables org project_number cursor) t = (Return data, t') ->
  is_page data nodes hasNextPage endCursor ->
  while_true self org project_number (S fuel) all_items cursor t =
  if truthy hasNextPage
  then while_true self org project_number fuel (all_items ++ nodes) endCursor t'
  else (Return (all_items ++ nodes), t').
Proof.
  intros Hreq (d & o & p & i & pi & -> & Ho & Hp & Hi & Hn & Hpi & Hh & Hc).
  cbn [while_true bind ret io_Monad]. unfold io_bind at 1.
  unfold query_variables in Hreq. rewrite Hreq.
  unfold io_bind, pure.
  rewrite (subscript_present _ _ _ Ho), (subscript_present _ _ _ Hp),
    (subscript_present _ _ _ Hi), (subscript_present _ _ _ Hn).
  cbn [iterate].
  rewrite (subscript_present _ _ _ Hpi), (subscript_present _ _ _ Hh).
  destruct (truthy hasNextPage); cbn [negb].
  - rewrite (subscript_present _ _ _ Hc). reflexivity.
  - reflexivity.
Qed.

(** A turn of the loop whose request fails. *)
Lemma while_true_raise fuel all_items cursor t e t' :
  _make_graphql_request self items_query
    (query_variables org project_number cursor) t = (Raise e, t') ->
  while_true self org project_number (S fuel) all_items cursor t = (Raise e, t').
Proof.
  intros Hreq. cbn [while_true bind ret io_Monad]. unfold io_bind at 1.
  unfold query_variables in Hreq. rewrite Hreq. reflexivity.
Qed.

Lemma fetch_fails_raises n cursor t e t' :
  fetch_fails self org project_number n cursor t e t' ->
  forall fuel all_items,
    n <= fuel ->
    while_true self org project_number fuel all_items cursor t = (Raise e, t').
Proof.
  induction 1 as [cursor t e t' Hreq
                 | n cursor t data t' nodes h c e t'' Hreq Hpage Hh _ IH];
    intros fuel all_items Hfuel.
  - destruct fuel as [| fuel]; [lia |].
    apply while_true_raise. exact Hreq.
  - destruct fuel as [| fuel]; [lia |].
    rewrite (while_true_page _ _ _ _ _ _ _ _ _ Hreq Hpage), Hh.
    apply IH. lia.
Qed.

End PaginatorLemmas.

Lemma while_true_script org project_number pages :
  Forall (fun p => truthy (page_hasNextPage p) = true) pages ->
  forall last rest fuel all_items cursor made,
    truthy (page_hasNextPage last) = false ->
    List.length pages < fuel ->
    while_true mock_exporter org project_number fuel all_items cursor
      {| script := map answer pages ++ answer last :: rest; calls := made |} =
    (Return (all_items ++ List.concat (map page_nodes pages) ++ page_nodes last),
     {| script := rest;
        calls := made ++ calls_with org project_number
                           (cursor :: map page_endCursor pages) |}).
Proof.
  induction 1 as [| p pages Hp _ IH];
    intros last rest fuel all_items cursor made Hlast Hfuel;
    (destruct fuel as [| fuel]; [simpl in Hfuel; lia |]).
  - erewrite while_true_page; [| reflexivity | apply page_is_page].
    rewrite Hlast. reflexivity.
  - cbn [map app].
    erewrite while_true_page; [| reflexivity | apply page_is_page].
    rewrite Hp. cbn [script calls].
    rewrite IH by (simpl in Hfuel; auto; lia).
    cbn [map List.concat calls_with]. rewrite <- !app_assoc. reflexivity.
Qed.

(** C1: the paginator goes through all the pages.  From no cursor on, each
    turn makes one call, with the query that asks for up to 100 items and
    with the cursor at hand, and appends the items of the answer in their
    order; it goes on with the [endCursor] of the answer while
    [hasNextPage] is true and returns at the first answer where it is
    false, leaving the rest of the script alone.  For [n] pages it returns
    the items of all of them in order after exactly [n] calls. *)
Theorem paginator_fetches_all_pages org project_number pages last rest fuel :
  Forall (fun p => truthy (page_hasNextPage p) = true) pages ->
  truthy (page_hasNextPage last) = false ->
  List.length pages < fuel ->
  exists all_items made,
    get_all_project_items mock_exporter org project_number fuel
      {| script := map answer pages ++ answer last :: rest; calls := [] |} =
    (Return all_items, {| script := rest; calls := made |}) /\
    all_items = List.concat (map page_nodes (pages ++ [last])) /\
    List.length all_items =
    list_sum (map (fun p => List.length (page_nodes p)) (pages ++ [last])) /\
    made = calls_with org project_number (PNone :: map page_endCursor pages) /\
    List.length made = List.length (pages ++ [last]) /\
    is_infix "items(first: 100, after: $cursor)" items_query = true.
Proof.
  intros Hpages Hlast Hfuel.
  exists (List.concat (map page_nodes (pages ++ [last]))),
         (calls_with org project_number (PNone :: map page_endCursor pages)).
  split.
  { unfold get_all_project_items.
    rewrite (while_true_script org project_number pages Hpages last rest fuel
               [] PNone [] Hlast Hfuel).
    rewrite map_app, List.concat_app. cbn [map List.concat app].
    rewrite List.app_nil_r. reflexivity. }
  split; [reflexivity |].
  split; [rewrite length_concat, map_map; reflexivity |].
  split; [reflexivity |].
  split.
  { unfold calls_with. rewrite length_map. cbn [List.length].
    rewrite length_map, length_app. simpl. lia. }
  vm_compute. reflexivity.
Qed.

Lemma paginator_fetches_all_pages_witness :
  exists all_items made,
    get_all_project_items mock_exporter ORG PROJECT_NUMBER 3
      {| script := map answer three_pages ++ [answer third_page]; calls := [] |} =
    (Return all_items, {| script := []; calls := made |}) /\
    all_items = numbered_items 0 207 /\
    List.length all_items = 207 /\
    made = [(items_query, query_variables ORG PROJECT_NUMBER PNone);
            (items_query,
             query_variables ORG PROJECT_NUMBER (PStr "Y3Vyc29yOjEwMA"));
            (items_query,
             query_variables ORG PROJECT_NUMBER (PStr "Y3Vyc29yOjIwMA"))] /\
    List.length made = 3.
Proof.
  destruct (paginator_fetches_all_pages ORG PROJECT_NUMBER three_pages
              third_page [] 3)
    as (all_items & made & Hrun & Hitems & Hlen & Hmade & Hcalls & _).
  - repeat constructor.
  - reflexivity.
  - simpl. lia.
  - exists all_items, made.
    split; [exact Hrun |].
    split; [rewrite Hitems; vm_compute; reflexivity |].
    split; [rewrite Hlen; vm_compute; reflexivity |].
    split; [exact Hmade | exact Hcalls].
Defined.

(** ** The orchestrator when a fetch fails *)

Lemma export_to_csv_raises {T} repr (self : exporter T) fuel org project_number
    output_file (w : world T) e t' :
  get_all_project_items self org project_number fuel (tool w) = (Raise e, t') ->
  export_to_csv repr self fuel org project_number output_file w =
  (Raise e, {| tool := t'; files := files w |}).
Proof.
  intros Hget. unfold export_to_csv. cbn [bind io_Monad].
  unfold io_bind at 1. unfold on_tool. rewrite Hget. reflexivity.
Qed.

(** C6: a failure of the transport adapter while fetching a page comes out
    of the paginator as it is; the export fails with it without writing
    any file, and the process exits with code 1. *)
Theorem failed_fetch_aborts_the_export {T} repr (init : io T (exporter T))
    self n fuel (w : world T) t e t' :
  init (tool w) = (Return self, t) ->
  fetch_fails self ORG PROJECT_NUMBER n PNone t e t' ->
  n <= fuel ->
  get_all_project_items self ORG PROJECT_NUMBER fuel t = (Raise e, t') /\
  export_to_csv repr self fuel ORG PROJECT_NUMBER OUTPUT_FILE
    {| tool := t; files := files w |} =
  (Raise e, {| tool := t'; files := files w |}) /\
  main_of repr init fuel w = (Return 1%Z, {| tool := t'; files := files w |}).
Proof.
  intros Hinit Hfails Hfuel.
  assert (Hget : get_all_project_items self ORG PROJECT_NUMBER fuel t
                 = (Raise e, t')).
  { exact (fetch_fails_raises self ORG PROJECT_NUMBER n PNone t e t' Hfails
             fuel [] Hfuel). }
  assert (Hexport : export_to_csv repr self fuel ORG PROJECT_NUMBER OUTPUT_FILE
                      {| tool := t; files := files w |} =
                    (Raise e, {| tool := t'; files := files w |})).
  { apply (export_to_csv_raises repr self fuel ORG PROJECT_NUMBER OUTPUT_FILE
             {| tool := t; files := files w |}). exact Hget. }
  split; [exact Hget |]. split; [exact Hexport |].
  unfold main_of. cbn [bind io_Monad]. unfold io_bind at 1.
  unfold on_tool at 1. rewrite Hinit. rewrite Hexport. reflexivity.
Qed.

Lemma failed_fetch_aborts_the_export_witness :
  let w := {| tool := {| script := failing_script; calls := [] |};
              files := [] |} in
  let t' := {| script := [answer third_page];
               calls := calls_with ORG PROJECT_NUMBER
                          [PNone; PStr "Y3Vyc29yOjEwMA"] |} in
  let e := Exception "gh CLI request failed: HTTP 502" in
  get_all_project_items mock_exporter ORG PROJECT_NUMBER 3 (tool w)
  = (Raise e, t') /\
  export_to_csv unused_repr mock_exporter 3 ORG PROJECT_NUMBER OUTPUT_FILE w
  = (Raise e, {| tool := t'; files := [] |}) /\
  main_of unused_repr (ret mock_exporter) 3 w
  = (Return 1%Z, {| tool := t'; files := [] |}).
Proof.
  cbv zeta.
  apply (failed_fetch_aborts_the_export unused_repr (ret mock_exporter)
           mock_exporter 2 3
           {| tool := {| script := failing_script; calls := [] |};
              files := [] |}).
  - reflexivity.
  - eapply fails_later.
    + reflexivity.
    + apply page_is_page.
    + reflexivity.
    + apply fails_here. reflexivity.
  - lia.
Defined.

(** ** The transport adapter *)

(** C7: the query fails with "gh CLI request failed: " and the standard
    error of the tool when the tool exits with a code other than zero;
    with "Failed to parse GraphQL response: " and the parser's message
    when its output is no JSON; with "GraphQL errors: " and the error list
    as it came when the parsed answer has an "errors" entry; and it
    returns the "data" entry of the parsed answer, as it is, otherwise. *)
Theorem query_fails_or_returns_data {T}
    (gh : list string -> option string -> T -> process * T)
    json_dumps json_loads repr query variables (t : T) :
  let payload := PDict [("query", PStr query); ("variables", variables)] in
  let run := gh ["gh"; "api"; "graphql"; "--input"; "-"]
                (Some (json_dumps payload)) t in
  let result :=
    make_graphql_request gh json_dumps json_loads repr query variables t in
  (forall returncode stdout stderr t',
     run = (Exited returncode stdout stderr, t') ->
     returncode <> 0%Z ->
     result = (Raise (Exception ("gh CLI request failed: " ++ stderr)), t')) /\
  (forall stdout stderr t' msg,
     run = (Exited 0 stdout stderr, t') ->
     json_loads stdout = inl msg ->
     result =
     (Raise (Exception ("Failed to parse GraphQL response: " ++ msg)), t')) /\
  (forall stdout stderr t' d errors,
     run = (Exited 0 stdout stderr, t') ->
     json_loads stdout = inr (PDict d) ->
     lookup "errors" d = Some errors ->
     result =
     (Raise (Exception ("GraphQL errors: " ++ str repr errors)), t')) /\
  (forall stdout stderr t' d data,
     run = (Exited 0 stdout stderr, t') ->
     json_loads stdout = inr (PDict d) ->
     lookup "errors" d = None ->
     lookup "data" d = Some data ->
     result = (Return data, t')).
Proof.
  cbv zeta. unfold make_graphql_request.
  cbn [bind io_Monad]. unfold io_bind, subprocess_run, pure.
  repeat split.
  - intros returncode stdout stderr t' -> Hcode.
    destruct (Z.eqb_spec returncode 0); [contradiction | reflexivity].
  - intros stdout stderr t' msg -> Hloads. cbn [Z.eqb].
    rewrite Hloads. reflexivity.
  - intros stdout stderr t' d errors -> Hloads Herrors. cbn [Z.eqb].
    rewrite Hloads. cbn [contains]. rewrite Herrors.
    rewrite (subscript_present _ _ _ Herrors). reflexivity.
  - intros stdout stderr t' d data -> Hloads Herrors Hdata. cbn [Z.eqb].
    rewrite Hloads. cbn [contains]. rewrite Herrors.
    rewrite (subscript_present _ _ _ Hdata). reflexivity.
Qed.

Lemma query_fails_or_returns_data_witness :
  make_graphql_request (constant_gh (Exited 1 "" "HTTP 502")) constant_dumps
    two_texts_loads unused_repr items_query PNone tt
  = (Raise (Exception "gh CLI request failed: HTTP 502"), tt) /\
  make_graphql_request (constant_gh (Exited 0 "<html>" "")) constant_dumps
    two_texts_loads unused_repr items_query PNone tt
  = (Raise (Exception
       "Failed to parse GraphQL response: Expecting value: line 1 column 1 (char 0)"),
     tt) /\
  make_graphql_request (constant_gh (Exited 0 "{errors}" "")) constant_dumps
    two_texts_loads unused_repr items_query PNone tt
  = (Raise (Exception "GraphQL errors: NOT_FOUND"), tt) /\
  make_graphql_request (constant_gh (Exited 0 "{data}" "")) constant_dumps
    two_texts_loads unused_repr items_query PNone tt
  = (Return (PDict [("organization", PNone)]), tt).
Proof.
  split; [| split; [| split]].
  - apply (proj1 (query_fails_or_returns_data
                    (constant_gh (Exited 1 "" "HTTP 502")) constant_dumps
                    two_texts_loads unused_repr items_query PNone tt)
             1%Z "" "HTTP 502" tt eq_refl).
    discriminate.
  - apply (proj1 (proj2 (query_fails_or_returns_data
                    (constant_gh (Exited 0 "<html>" "")) constant_dumps
                    two_texts_loads unused_repr items_query PNone tt))
             "<html>" "" tt _ eq_refl eq_refl).
  - apply (proj1 (proj2 (proj2 (query_fails_or_returns_data
                    (constant_gh (Exited 0 "{errors}" "")) constant_dumps
                    two_texts_loads unused_repr items_query PNone tt)))
             "{errors}" "" tt _ _ eq_refl eq_refl eq_refl).
  - apply (proj2 (proj2 (proj2 (query_fails_or_returns_data
                    (constant_gh (Exited 0 "{data}" "")) constant_dumps
                    two_texts_loads unused_repr items_query PNone tt)))
             "{data}" "" tt _ _ eq_refl eq_refl eq_refl eq_refl).
Defined.

(** * Further properties of the code *)

(** ** Helper lemmas: what a returned row tells *)

Lemma bind_Return_inv {A B} (c : outcome A) (k : A -> outcome B) b :
  outcome_bind c k = Return b -> exists a, c = Return a /\ k a = Return b.
Proof. destruct c; simpl; intros H; [eauto | discriminate | discriminate]. Qed.

Lemma replace_no_line_break s :
  has_line_break (replace carriage_return space (replace newline space s))
  = false.
Proof.
  induction s as [| a s IH]; [reflexivity |].
  cbn [replace has_line_break]. rewrite IH.
  destruct (Ascii.eqb a newline) eqn:En;
    [| destruct (Ascii.eqb a carriage_return) eqn:Ec];
    rewrite ?En, ?Ec; reflexivity.
Qed.

Section RawFlattener.

Variable repr : pyval -> string.

(** The row of an item, when the flattener gives one. *)
Lemma item_to_row_Some_inv item row :
  item_to_row repr item = Return (Some row) ->
  has_truthy_content item = true /\
  exists (is_epic : bool) title reference url body,
    row = [if is_epic then PStr "Epic" else PStr "Story"; title;
           PStr reference; url;
           PStr (replace carriage_return space (replace newline space body));
           PStr ""].
Proof.
  intros H. unfold item_to_row in H. cbn [bind ret outcome_Monad] in H.
  apply bind_Return_inv in H as (content & Hc & H).
  destruct (truthy content) eqn:Ht; cbn [negb] in H; [| discriminate].
  split; [unfold has_truthy_content; rewrite Hc; exact Ht |].
  apply bind_Return_inv in H as (number & _ & H).
  apply bind_Return_inv in H as (title & _ & H).
  apply bind_Return_inv in H as (body_or_none & _ & H).
  apply bind_Return_inv in H as (url & _ & H).
  apply bind_Return_inv in H as (labels_field & _ & H).
  apply bind_Return_inv in H as (labels_nodes & _ & H).
  apply bind_Return_inv in H as (labels & _ & H).
  apply bind_Return_inv in H as (is_epic & _ & H).
  apply bind_Return_inv in H as (field_values_field & _ & H).
  apply bind_Return_inv in H as (field_values & _ & H).
  apply bind_Return_inv in H as (field_values' & _ & H).
  apply bind_Return_inv in H as (story_points & _ & H).
  apply bind_Return_inv in H as (description & Hd & H).
  apply bind_Return_inv in H as (description' & Hd' & H).
  destruct (py_or body_or_none (PStr "")) as [| | | | body | |];
    try discriminate Hd.
  cbn [py_replace] in Hd, Hd'.
  injection Hd as <-. injection Hd' as <-. injection H as <-.
  exists is_epic. eauto 6.
Qed.

Lemma item_to_row_None_inv item :
  item_to_row repr item = Return None -> has_truthy_content item = false.
Proof.
  intros H. unfold item_to_row in H. cbn [bind ret outcome_Monad] in H.
  apply bind_Return_inv in H as (content & Hc & H).
  unfold has_truthy_content. rewrite Hc.
  destruct (truthy content); [| reflexivity].
  cbn [negb] in H. exfalso.
  repeat (apply bind_Return_inv in H as (? & _ & H)).
  discriminate H.
Qed.

(** The loop over the items, one part of the list after another. *)
Lemma items_loop_app xs ys csv_rows :
  items_loop repr (xs ++ ys) csv_rows =
  outcome_bind (items_loop repr xs csv_rows) (fun rows => items_loop repr ys rows).
Proof.
  revert csv_rows. induction xs as [| x xs IH]; intros csv_rows; [reflexivity |].
  cbn [app items_loop bind outcome_Monad].
  destruct (item_to_row repr x) as [[row |] | e |]; cbn [outcome_bind];
    auto.
Qed.

Lemma items_loop_acc ys csv_rows :
  items_loop repr ys csv_rows =
  outcome_bind (items_loop repr ys []) (fun rows => Return (csv_rows ++ rows)).
Proof.
  revert csv_rows. induction ys as [| y ys IH]; intros csv_rows.
  - cbn. rewrite app_nil_r. reflexivity.
  - cbn [items_loop bind outcome_Monad].
    destruct (item_to_row repr y) as [[row |] | e |]; cbn [outcome_bind].
    + rewrite (IH (csv_rows ++ [row])), (IH ([] ++ [row])).
      destruct (items_loop repr ys []); cbn [outcome_bind]; try reflexivity.
      rewrite <- app_assoc. reflexivity.
    + apply IH.
    + reflexivity.
    + reflexivity.
Qed.

Lemma process_app xs ys :
  process_items_to_csv_rows repr (xs ++ ys) =
  outcome_bind (process_items_to_csv_rows repr xs)
    (fun rows => outcome_bind (process_items_to_csv_rows repr ys)
       (fun rows' => Return (rows ++ rows'))).
Proof.
  unfold process_items_to_csv_rows. rewrite items_loop_app.
  destruct (items_loop repr xs []) as [rows | e |]; cbn [outcome_bind];
    try reflexivity.
  apply items_loop_acc.
Qed.

Lemma process_raises_at good rows bad e rest :
  process_items_to_csv_rows repr good = Return rows ->
  item_to_row repr bad = Raise e ->
  process_items_to_csv_rows repr (good ++ bad :: rest) = Raise e.
Proof.
  intros Hgood Hbad. rewrite process_app, Hgood. cbn [outcome_bind].
  unfold process_items_to_csv_rows. cbn [items_loop bind outcome_Monad].
  rewrite Hbad. reflexivity.
Qed.

Lemma items_loop_rows items :
  forall csv_rows rows,
    items_loop repr items csv_rows = Return rows ->
    exists new,
      rows = csv_rows ++ new /\
      List.length new = List.length (filter has_truthy_content items) /\
      forallb well_shaped new = true /\
      forallb one_line_description new = true.
Proof.
  induction items as [| item items IH]; intros csv_rows rows H.
  - injection H as <-. exists []. rewrite app_nil_r. repeat split.
  - cbn [items_loop bind outcome_Monad] in H.
    apply bind_Return_inv in H as ([row |] & Hitem & H).
    + apply IH in H as (new & -> & Hlen & Hshape & Hline).
      apply item_to_row_Some_inv in Hitem
        as (Hcontent & is_epic & title & reference & url & body & ->).
      eexists (_ :: new). rewrite <- app_assoc. split; [reflexivity |].
      cbn [filter]. rewrite Hcontent. cbn [List.length forallb].
      rewrite Hlen, Hshape, Hline.
      repeat split.
      * destruct is_epic; reflexivity.
      * unfold one_line_description. cbn [nth].
        rewrite replace_no_line_break. reflexivity.
    + apply IH in H as (new & -> & Hlen & Hshape & Hline).
      apply item_to_row_None_inv in Hitem.
      exists new. cbn [filter]. rewrite Hitem. auto.
Qed.

End RawFlattener.

(** ** The flattener on any input *)

Section RawFlattenerItems.

Variable repr : pyval -> string.

Lemma item_to_row_same_entries item item' :
  same_entries item item' -> item_to_row repr item = item_to_row repr item'.
Proof.
  intros (d & d' & -> & -> & Hc & Hf).
  unfold item_to_row, get. rewrite Hc, Hf. reflexivity.
Qed.

Lemma items_loop_same_entries items items' :
  Forall2 same_entries items items' ->
  forall csv_rows,
    items_loop repr items csv_rows = items_loop repr items' csv_rows.
Proof.
  induction 1 as [| item item' items items' Hsame _ IH]; intros csv_rows;
    [reflexivity |].
  cbn [items_loop bind outcome_Monad].
  rewrite (item_to_row_same_entries _ _ Hsame).
  destruct (item_to_row repr item') as [[row |] | e |]; cbn [outcome_bind];
    auto.
Qed.

Lemma item_to_row_not_a_dict item :
  (forall d, item <> PDict d) -> item_to_row repr item = Raise AttributeError.
Proof.
  intros H. destruct item; try reflexivity. now destruct (H d).
Qed.

Lemma item_to_row_content_not_a_dict d content :
  lookup "content" d = Some content ->
  truthy content = true ->
  (forall cd, content <> PDict cd) ->
  item_to_row repr (PDict d) = Raise AttributeError.
Proof.
  intros Hc Ht Hn. unfold item_to_row. cbn [bind ret outcome_Monad].
  access Hc. rewrite Ht. cbn [negb].
  destruct content; try reflexivity. now destruct (Hn d0).
Qed.

(** The row of an item with content, from what the loop over the field
    values gives. *)
Lemma item_to_row_story_points d fvd nodes cd c points :
  lookup "fieldValues" d = Some (PDict fvd) ->
  lookup "nodes" fvd = Some (PList nodes) ->
  lookup "content" d = Some (PDict cd) ->
  represents_content cd c ->
  field_values_loop repr nodes (PStr "") = Return (PStr points) ->
  item_to_row repr (PDict d) =
  Return (Some [PStr (row_type c);
                PStr (if String.eqb points "" then content_title c
                      else "[" ++ points ++ "] " ++ content_title c);
                PStr (str_of_Z (content_number c)); PStr (content_url c);
                PStr (row_description c); PStr ""]).
Proof.
  intros Hfv Hnodes Hc
    (Hnum & Htitle & Hbody & Hurl & ld & lnodes & Hlabels & Hlnodes & Hnames)
    Hloop.
  unfold item_to_row. cbn [bind ret outcome_Monad].
  access Hc. rewrite (truthy_dict _ _ _ Hnum). cbn [negb].
  access Hnum. access Htitle.
  assert (Hb : exists b, get (PDict cd) "body" PNone = Return b /\
               py_or b (PStr "") =
               PStr (match content_body c with Some s => s | None => "" end)).
  { destruct (content_body c) as [s |].
    - exists (PStr s). split; [apply get_present, Hbody |].
      destruct s; reflexivity.
    - exists PNone. split; [| reflexivity].
      destruct Hbody as [Hb | Hb];
        [apply get_missing | apply get_present]; exact Hb. }
  destruct Hb as (b & -> & Hb). cbn [outcome_bind]. rewrite Hb.
  access Hurl. access Hlabels. access Hlnodes.
  assert (Hl : (if truthy (PList lnodes)
                then outcome_bind (subscript (PDict cd) "labels")
                       (fun l => outcome_bind (subscript l "nodes")
                          (fun nodes0 => outcome_bind (iterate nodes0)
                             (fun nodes1 => label_names nodes1)))
                else Return []) = Return (map PStr (content_labels c))).
  { destruct lnodes as [| n lnodes].
    - inversion Hnames. reflexivity.
    - cbn [truthy]. access Hlabels. access Hlnodes. cbn [iterate outcome_bind].
      apply label_names_represents. exact Hnames. }
  rewrite Hl. cbn [outcome_bind contains].
  access Hfv. access Hnodes. cbn [iterate outcome_bind].
  rewrite Hloop. cbn [outcome_bind py_replace].
  rewrite replace_unbreak, existsb_Epic.
  unfold row_type, row_description. cbn [truthy str].
  do 2 f_equal.
  destruct (existsb (String.eqb "Epic") (content_labels c)),
    (String.eqb points ""), (content_body c); reflexivity.
Qed.

(** The loop is left at the first field named Story Points: what comes
    after it is not looked at. *)
Lemma field_values_loop_stops before fs m f after :
  represents_fields before fs ->
  (forall g, In g fs -> named_story_points g = false) ->
  represents_field m f ->
  named_story_points f = true ->
  field_values_loop repr (before ++ m :: after) (PStr "") =
  Return (PStr (payload_text (payload f))).
Proof.
  intros Hbefore. revert m f after.
  induction Hbefore as [| d nodes fs Hd _ IH | node nodes g fs Hg _ IH];
    intros m f after Hnone Hm Hf.
  - cbn [app].
    pose proof (case_story_points_represents repr m f (PStr "") Hm) as Hcase.
    destruct Hm as (d & fd & -> & Hfield & Hname & _).
    cbn [field_values_loop bind ret outcome_Monad].
    access Hfield. access Hname. cbn [py_lower outcome_bind].
    unfold named_story_points in Hf. rewrite Hf, Hcase.
    destruct (payload f); reflexivity.
  - cbn [app]. rewrite field_values_loop_other by assumption.
    apply IH; assumption.
  - cbn [app].
    assert (Hng : named_story_points g = false).
    { apply Hnone. left. reflexivity. }
    destruct Hg as (d & fd & -> & Hfield & Hname & _).
    cbn [field_values_loop bind ret outcome_Monad].
    access Hfield. access Hname. cbn [py_lower outcome_bind].
    unfold named_story_points in Hng. rewrite Hng.
    apply IH; try assumption.
    intros h Hh. apply Hnone. right. exact Hh.
Qed.

End RawFlattenerItems.

(** X1: whatever the items are, every row the flattener returns has six
    cells, of which the Type is "Epic" or "Story", the ReferenceId and the
    Description are strings and the AcceptanceCriteria is the empty
    string. *)
Theorem every_row_is_well_shaped repr items rows :
  process_items_to_csv_rows repr items = Return rows ->
  forallb well_shaped rows = true /\
  Forall (fun row => List.length row = 6) rows.
Proof.
  intros H. unfold process_items_to_csv_rows in H.
  apply items_loop_rows in H as (new & -> & _ & Hshape & _).
  cbn [app]. split; [exact Hshape |].
  apply Forall_forall. intros row Hin.
  rewrite forallb_forall in Hshape. specialize (Hshape row Hin).
  destruct row as [| ? [| ? [| ? [| ? [| ? [| ? [| ? ?]]]]]]];
    try discriminate Hshape.
  reflexivity.
Qed.

Lemma every_row_is_well_shaped_witness :
  forallb well_shaped
    [[PStr "Story"; PNone; PStr "None"; PNone; PStr ""; PStr ""];
     [PStr "Story"; PStr ""; PStr ""; PStr ""; PStr ""; PStr ""]] = true /\
  Forall (fun row => List.length row = 6)
    [[PStr "Story"; PNone; PStr "None"; PNone; PStr ""; PStr ""];
     [PStr "Story"; PStr ""; PStr ""; PStr ""; PStr ""; PStr ""]].
Proof.
  exact (every_row_is_well_shaped unused_repr [null_scalars_item; bare_item] _
           eq_refl).
Defined.

(** X2: whatever the items are, no Description the flattener returns
    contains a line feed or a carriage return. *)
Theorem every_description_is_one_line repr items rows :
  process_items_to_csv_rows repr items = Return rows ->
  forall row, In row rows ->
    exists description,
      nth 4 row PNone = PStr description /\
      has_line_break description = false.
Proof.
  intros H row Hin. unfold process_items_to_csv_rows in H.
  apply items_loop_rows in H as (new & -> & _ & _ & Hline).
  cbn [app] in Hin. rewrite forallb_forall in Hline.
  specialize (Hline row Hin). unfold one_line_description in Hline.
  destruct (nth 4 row PNone); try discriminate Hline.
  eexists. split; [reflexivity |].
  now destruct (has_line_break s).
Qed.

Lemma every_description_is_one_line_witness :
  exists description,
    nth 4 [PStr "Story"; PStr "[5] Fix login"; PStr "12";
           PStr "https://github.com/conda/conda/issues/12";
           PStr "Line1 Line2  Line3"; PStr ""] PNone = PStr description /\
    has_line_break description = false.
Proof.
  exact (every_description_is_one_line unused_repr [encode_item sample_item] _
           eq_refl _ (or_introl eq_refl)).
Defined.

(** X3: whatever the items are, when the flattener returns, the number
    of rows is the number of items whose "content" is there and true,
    so never more than the number of items. *)
Theorem as_many_rows_as_items_with_content repr items rows :
  process_items_to_csv_rows repr items = Return rows ->
  List.length rows = List.length (filter has_truthy_content items) /\
  List.length rows <= List.length items.
Proof.
  intros H. unfold process_items_to_csv_rows in H.
  apply items_loop_rows in H as (new & -> & Hlen & _).
  cbn [app]. rewrite Hlen. split; [reflexivity | apply filter_length_le].
Qed.

Lemma as_many_rows_as_items_with_content_witness :
  List.length [[PStr "Story"; PStr ""; PStr ""; PStr ""; PStr ""; PStr ""]]
  = 1 /\
  List.length [[PStr "Story"; PStr ""; PStr ""; PStr ""; PStr ""; PStr ""]]
  <= 4.
Proof.
  exact (as_many_rows_as_items_with_content unused_repr
           [PDict []; bare_item; PDict [("content", PDict [])];
            PDict [("content", PInt 0)]] _ eq_refl).
Defined.

(** X4: flattening two lists of items one after the other is flattening
    the first, then the second, and putting the rows together; an
    exception in the first list is the result whatever the second is. *)
Theorem flattening_goes_list_by_list repr xs ys :
  (forall rows rows',
     process_items_to_csv_rows repr xs = Return rows ->
     process_items_to_csv_rows repr ys = Return rows' ->
     process_items_to_csv_rows repr (xs ++ ys) = Return (rows ++ rows')) /\
  (forall e,
     process_items_to_csv_rows repr xs = Raise e ->
     process_items_to_csv_rows repr (xs ++ ys) = Raise e) /\
  (forall rows e,
     process_items_to_csv_rows repr xs = Return rows ->
     process_items_to_csv_rows repr ys = Raise e ->
     process_items_to_csv_rows repr (xs ++ ys) = Raise e).
Proof.
  rewrite process_app. repeat split.
  - intros rows rows' -> ->. reflexivity.
  - intros e ->. reflexivity.
  - intros rows e -> ->. reflexivity.
Qed.

Lemma flattening_goes_list_by_list_witness :
  process_items_to_csv_rows unused_repr
    ([encode_item sample_item; encode_item draft_item]
     ++ [encode_item zero_pointed_item]) =
  Return ([row_of (item_fieldValues sample_item) sample_content]
          ++ [row_of (item_fieldValues zero_pointed_item) sample_content]) /\
  process_items_to_csv_rows unused_repr
    ([null_labels_item] ++ [encode_item sample_item]) = Raise AttributeError.
Proof.
  split.
  - apply (proj1 (flattening_goes_list_by_list unused_repr
                    [encode_item sample_item; encode_item draft_item]
                    [encode_item zero_pointed_item])); reflexivity.
  - apply (proj1 (proj2 (flattening_goes_list_by_list unused_repr
                    [null_labels_item] [encode_item sample_item]))).
    reflexivity.
Defined.

(** X5: one item that makes the flattener raise makes the whole call
    raise the same exception: the rows of the items before it are not
    returned, and the items after it are not looked at. *)
Theorem one_bad_item_fails_the_whole repr good rows bad e rest :
  process_items_to_csv_rows repr good = Return rows ->
  process_items_to_csv_rows repr [bad] = Raise e ->
  process_items_to_csv_rows repr (good ++ bad :: rest) = Raise e.
Proof.
  intros Hgood Hbad. apply (process_raises_at repr good rows); [exact Hgood |].
  unfold process_items_to_csv_rows in Hbad.
  cbn [items_loop bind outcome_Monad] in Hbad.
  destruct (item_to_row repr bad) as [[row |] | e' |];
    cbn [outcome_bind items_loop ret outcome_Monad] in Hbad;
    try discriminate Hbad.
  injection Hbad as ->. reflexivity.
Qed.

Lemma one_bad_item_fails_the_whole_witness :
  process_items_to_csv_rows unused_repr
    ([encode_item sample_item] ++ null_fieldValues_item :: [PInt 7])
  = Raise AttributeError.
Proof.
  exact (one_bad_item_fails_the_whole unused_repr [encode_item sample_item] _
           null_fieldValues_item AttributeError [PInt 7] eq_refl eq_refl).
Defined.

(** X6: the field values after the first field named Story Points are
    never read: whatever follows it, objects or not, the row is the one
    its value gives. *)
Theorem fields_after_story_points_are_not_read
    repr d fvd cd c before fs m f after :
  lookup "fieldValues" d = Some (PDict fvd) ->
  lookup "nodes" fvd = Some (PList (before ++ m :: after)) ->
  lookup "content" d = Some (PDict cd) ->
  represents_content cd c ->
  represents_fields before fs ->
  (forall g, In g fs -> named_story_points g = false) ->
  represents_field m f ->
  named_story_points f = true ->
  process_items_to_csv_rows repr [PDict d] =
  Return [[PStr (row_type c);
           PStr (if String.eqb (payload_text (payload f)) ""
                 then content_title c
                 else "[" ++ payload_text (payload f) ++ "] " ++ content_title c);
           PStr (str_of_Z (content_number c)); PStr (content_url c);
           PStr (row_description c); PStr ""]].
Proof.
  intros Hfv Hnodes Hc Hcontent Hbefore Hnone Hm Hf.
  unfold process_items_to_csv_rows. cbn [items_loop bind outcome_Monad].
  rewrite (item_to_row_story_points repr d fvd _ cd c _ Hfv Hnodes Hc Hcontent
             (field_values_loop_stops repr before fs m f after
                Hbefore Hnone Hm Hf)).
  reflexivity.
Qed.

Lemma fields_after_story_points_are_not_read_witness :
  process_items_to_csv_rows unused_repr [garbage_tail_item] =
  Return [[PStr "Story"; PStr "[3] Fix login"; PStr "12";
           PStr "https://github.com/conda/conda/issues/12";
           PStr "Line1 Line2  Line3"; PStr ""]].
Proof.
  unfold garbage_tail_item.
  eapply (fields_after_story_points_are_not_read unused_repr _ _ _
            sample_content [] []
            (encode_field {| field_name := "Story Points";
                             payload := NumberValue (Int 3) |})
            {| field_name := "Story Points"; payload := NumberValue (Int 3) |}
            [PNone; PInt 5]).
  - reflexivity.
  - reflexivity.
  - reflexivity.
  - unfold represents_content.
    repeat (split; [reflexivity |]).
    eexists; eexists. repeat (split; [reflexivity |]).
    apply encode_label_represents.
  - apply fields_nil.
  - intros g [].
  - apply encode_field_represents.
  - reflexivity.
Defined.

(** X7: the flattener reads two entries of an item, "content" and
    "fieldValues": items that agree on them give the same rows or the
    same exception, whatever their other keys and the order of the keys. *)
Theorem only_content_and_fieldValues_are_read repr items items' :
  Forall2 same_entries items items' ->
  process_items_to_csv_rows repr items = process_items_to_csv_rows repr items'.
Proof. intros H. apply (items_loop_same_entries repr _ _ H). Qed.

Lemma only_content_and_fieldValues_are_read_witness :
  process_items_to_csv_rows unused_repr [encode_item sample_item] =
  process_items_to_csv_rows unused_repr [reordered_item].
Proof.
  apply only_content_and_fieldValues_are_read.
  constructor; [| constructor].
  unfold same_entries. do 2 eexists.
  split; [reflexivity |]. split; [reflexivity |]. split; reflexivity.
Defined.

(** X8: an item that is no object, or whose content is true and no
    object, makes the flattener raise AttributeError, after any items
    that gave rows and whatever items follow. *)
Theorem no_object_raises_AttributeError repr good rows item rest :
  process_items_to_csv_rows repr good = Return rows ->
  (forall d, item <> PDict d) \/
  (exists d content,
     item = PDict d /\ lookup "content" d = Some content /\
     truthy content = true /\ forall cd, content <> PDict cd) ->
  process_items_to_csv_rows repr (good ++ item :: rest) = Raise AttributeError.
Proof.
  intros Hgood Hitem. apply (process_raises_at repr good rows); [exact Hgood |].
  destruct Hitem as [Hn | (d & content & -> & Hc & Ht & Hn)].
  - apply item_to_row_not_a_dict. exact Hn.
  - apply (item_to_row_content_not_a_dict repr d content); assumption.
Qed.

Lemma no_object_raises_AttributeError_witness :
  process_items_to_csv_rows unused_repr
    ([encode_item sample_item] ++ PStr "PVTI_9" :: []) = Raise AttributeError /\
  process_items_to_csv_rows unused_repr
    ([] ++ PDict [("content", PStr "draft")] :: [encode_item sample_item])
  = Raise AttributeError.
Proof.
  split.
  - apply (no_object_raises_AttributeError unused_repr
             [encode_item sample_item] _ (PStr "PVTI_9") [] eq_refl).
    left. discriminate.
  - apply (no_object_raises_AttributeError unused_repr [] _
             (PDict [("content", PStr "draft")]) [encode_item sample_item]
             eq_refl).
    right. exists [("content", PStr "draft")], (PStr "draft").
    repeat split. discriminate.
Defined.

(** ** The paginator on any transport *)

Section PaginatorRuns.

Context {T : Type}.
Variable self : exporter T.
Variables (org : string) (project_number : Z).

(** A turn of the loop whose request is answered by a last page. *)
Lemma while_true_last fuel all_items cursor t data t' nodes :
  _make_graphql_request self items_query
    (query_variables org project_number cursor) t = (Return data, t') ->
  is_last_page data nodes ->
  while_true self org project_number (S fuel) all_items cursor t =
  (Return (all_items ++ nodes), t').
Proof.
  intros Hreq (d & o & p & i & pi & h & -> & Ho & Hp & Hi & Hn & Hpi & Hh & Hf).
  cbn [while_true bind ret io_Monad]. unfold io_bind at 1.
  unfold query_variables in Hreq. rewrite Hreq.
  unfold io_bind, pure.
  rewrite (subscript_present _ _ _ Ho), (subscript_present _ _ _ Hp),
    (subscript_present _ _ _ Hi), (subscript_present _ _ _ Hn).
  cbn [iterate].
  rewrite (subscript_present _ _ _ Hpi), (subscript_present _ _ _ Hh), Hf.
  reflexivity.
Qed.

Lemma fetches_returns n cursor t items t' :
  fetches self org project_number n cursor t items t' ->
  forall fuel all_items,
    n <= fuel ->
    while_true self org project_number fuel all_items cursor t =
    (Return (all_items ++ items), t').
Proof.
  induction 1 as [cursor t data t' nodes Hreq Hlast
                 | n cursor t data t' nodes h c items t'' Hreq Hpage Hh _ IH];
    intros fuel all_items Hfuel.
  - destruct fuel as [| fuel]; [lia |].
    apply (while_true_last _ _ _ _ _ _ _ Hreq Hlast).
  - destruct fuel as [| fuel]; [lia |].
    rewrite (while_true_page _ _ _ _ _ _ _ _ _ _ _ _ Hreq Hpage), Hh.
    rewrite IH by lia. rewrite <- app_assoc. reflexivity.
Qed.

(** The first answer when it is an object but no page. *)
Lemma while_true_no_page fuel all_items cursor t d t' e :
  _make_graphql_request self items_query
    (query_variables org project_number cursor) t = (Return (PDict d), t') ->
  (organization <- subscript (PDict d) "organization" ;;
   projectV2 <- subscript organization "projectV2" ;;
   subscript projectV2 "items") = Raise e ->
  while_true self org project_number (S fuel) all_items cursor t = (Raise e, t').
Proof.
  intros Hreq Hchain.
  cbn [while_true bind ret io_Monad]. unfold io_bind at 1.
  unfold query_variables in Hreq. rewrite Hreq.
  unfold io_bind, pure.
  cbn [bind outcome_Monad] in Hchain.
  destruct (subscript (PDict d) "organization") as [organization | e1 |];
    cbn [outcome_bind] in Hchain; try congruence.
  destruct (subscript organization "projectV2") as [projectV2 | e2 |];
    cbn [outcome_bind] in Hchain; try congruence.
  rewrite Hchain. reflexivity.
Qed.

End PaginatorRuns.

(** X9: the paginator has no bound of its own: on a transport that
    answers every request with a page whose [hasNextPage] is true, it
    neither returns nor raises within any number of turns. *)
Theorem endless_pages_never_return {T} (self : exporter T) org project_number :
  (forall cursor t, exists data t' nodes hasNextPage endCursor,
      _make_graphql_request self items_query
        (query_variables org project_number cursor) t = (Return data, t') /\
      is_page data nodes hasNextPage endCursor /\
      truthy hasNextPage = true) ->
  forall fuel t,
    fst (get_all_project_items self org project_number fuel t) = OutOfFuel.
Proof.
  intros Hmore fuel. unfold get_all_project_items.
  generalize (@nil pyval) as all_items. generalize PNone as cursor.
  induction fuel as [| fuel IH]; intros cursor all_items t; [reflexivity |].
  destruct (Hmore cursor t) as (data & t' & nodes & h & c & Hreq & Hpage & Hh).
  rewrite (while_true_page _ _ _ _ _ _ _ _ _ _ _ _ Hreq Hpage), Hh.
  apply IH.
Qed.

Lemma endless_pages_never_return_witness :
  fst (get_all_project_items endless_exporter ORG PROJECT_NUMBER 50 0)
  = OutOfFuel.
Proof.
  apply (endless_pages_never_return endless_exporter ORG PROJECT_NUMBER).
  intros cursor t. do 5 eexists.
  split; [reflexivity |]. split; [apply page_is_page | reflexivity].
Defined.

(** X10: an answer in which the organization or the project is null, as
    for one that does not exist, makes the paginator raise TypeError; one
    without "organization" makes it raise KeyError. *)
Theorem missing_project_raises {T} (self : exporter T) org project_number
    fuel t d t' :
  _make_graphql_request self items_query
    (query_variables org project_number PNone) t = (Return (PDict d), t') ->
  (lookup "organization" d = Some PNone ->
   get_all_project_items self org project_number (S fuel) t
   = (Raise TypeError, t')) /\
  (forall o,
     lookup "organization" d = Some (PDict o) ->
     lookup "projectV2" o = Some PNone ->
     get_all_project_items self org project_number (S fuel) t
     = (Raise TypeError, t')) /\
  (lookup "organization" d = None ->
   get_all_project_items self org project_number (S fuel) t
   = (Raise (KeyError "organization"), t')).
Proof.
  intros Hreq. unfold get_all_project_items. repeat split.
  - intros Ho. eapply while_true_no_page; [exact Hreq |].
    cbn [bind outcome_Monad]. rewrite (subscript_present _ _ _ Ho). reflexivity.
  - intros o Ho Hp. eapply while_true_no_page; [exact Hreq |].
    cbn [bind outcome_Monad]. rewrite (subscript_present _ _ _ Ho).
    cbn [outcome_bind]. rewrite (subscript_present _ _ _ Hp). reflexivity.
  - intros Ho. eapply while_true_no_page; [exact Hreq |].
    cbn [bind outcome_Monad subscript]. rewrite Ho. reflexivity.
Qed.

Lemma missing_project_raises_witness :
  get_all_project_items mock_exporter ORG PROJECT_NUMBER 1
    {| script := [Return (PDict [("organization",
                                  PDict [("projectV2", PNone)])])];
       calls := [] |}
  = (Raise TypeError,
     {| script := [];
        calls := [(items_query, query_variables ORG PROJECT_NUMBER PNone)] |}).
Proof.
  apply (proj1 (proj2 (missing_project_raises mock_exporter ORG PROJECT_NUMBER 0
                  {| script := [Return (PDict [("organization",
                                          PDict [("projectV2", PNone)])])];
                     calls := [] |}
                  [("organization", PDict [("projectV2", PNone)])] _ eq_refl))
           [("projectV2", PNone)]); reflexivity.
Defined.

(** ** The orchestrator from end to end *)

Section OrchestratorRuns.

Context {T : Type}.
Variable repr : pyval -> string.


Lemma export_to_csv_flattener_raises (self : exporter T) fuel org
    project_number output_file (w : world T) items t' e :
  get_all_project_items self org project_number fuel (tool w)
  = (Return items, t') ->
  process_items_to_csv_rows repr items = Raise e ->
  export_to_csv repr self fuel org project_number output_file w =
  (Raise e, {| tool := t'; files := files w |}).
Proof.
  intros Hget Hrows. unfold export_to_csv. cbn [bind io_Monad].
  unfold io_bind, on_tool, pure. rewrite Hget, Hrows. reflexivity.
Qed.

(** [main] when the constructor gives the exporter: its exit code is
    decided by the export. *)
Lemma main_of_export (init : io T (exporter T)) self fuel (w : world T) t :
  init (tool w) = (Return self, t) ->
  main_of repr init fuel w =
  match export_to_csv repr self fuel ORG PROJECT_NUMBER OUTPUT_FILE
          {| tool := t; files := files w |} with
  | (Return _, w') => (Return 0%Z, w')
  | (Raise _, w') => (Return 1%Z, w')
  | (OutOfFuel, w') => (OutOfFuel, w')
  end.
Proof.
  intros Hinit. unfold main_of. cbn [bind io_Monad]. unfold io_bind at 1.
  unfold on_tool at 1. rewrite Hinit. reflexivity.
Qed.

Lemma main_of_init_raises (init : io T (exporter T)) fuel (w : world T) e t :
  init (tool w) = (Raise e, t) ->
  main_of repr init fuel w = (Return 1%Z, {| tool := t; files := files w |}).
Proof.
  intros Hinit. unfold main_of. cbn [bind io_Monad]. unfold io_bind at 1.
  unfold on_tool at 1. rewrite Hinit. reflexivity.
Qed.


End OrchestratorRuns.




(** X13: when an item makes the flattener raise, the export raises the
    same exception after all pages were fetched, no file is written, not
    even with the rows of the items before it, and [main] exits with
    code 1. *)
Theorem bad_item_aborts_the_export {T} repr (init : io T (exporter T))
    self n fuel (w : world T) t items t' e :
  init (tool w) = (Return self, t) ->
  fetches self ORG PROJECT_NUMBER n PNone t items t' ->
  n <= fuel ->
  process_items_to_csv_rows repr items = Raise e ->
  export_to_csv repr self fuel ORG PROJECT_NUMBER OUTPUT_FILE
    {| tool := t; files := files w |} =
  (Raise e, {| tool := t'; files := files w |}) /\
  main_of repr init fuel w = (Return 1%Z, {| tool := t'; files := files w |}).
Proof.
  intros Hinit Hfetch Hfuel Hraise.
  assert (Hexport : export_to_csv repr self fuel ORG PROJECT_NUMBER OUTPUT_FILE
                      {| tool := t; files := files w |} =
                    (Raise e, {| tool := t'; files := files w |})).
  { apply (export_to_csv_flattener_raises repr self fuel ORG PROJECT_NUMBER
             OUTPUT_FILE {| tool := t; files := files w |} items t' e);
      [| exact Hraise].
    exact (fetches_returns self ORG PROJECT_NUMBER n PNone t items t' Hfetch
             fuel [] Hfuel). }
  split; [exact Hexport |].
  rewrite (main_of_export repr init self fuel w t Hinit), Hexport. reflexivity.
Qed.

Lemma bad_item_aborts_the_export_witness :
  let w := {| tool := {| script := broken_board_script; calls := [] |};
              files := [] |} in
  let t' := {| script := [];
               calls := calls_with ORG PROJECT_NUMBER [PNone] |} in
  export_to_csv unused_repr mock_exporter 1 ORG PROJECT_NUMBER OUTPUT_FILE w =
  (Raise AttributeError, {| tool := t'; files := [] |}) /\
  main_of unused_repr (ret mock_exporter) 1 w =
  (Return 1%Z, {| tool := t'; files := [] |}).
Proof.
  cbv zeta.
  eapply (bad_item_aborts_the_export unused_repr (ret mock_exporter)
            mock_exporter 1 1
            {| tool := {| script := broken_board_script; calls := [] |};
               files := [] |}
            _ [encode_item sample_item; null_labels_item]).
  - reflexivity.
  - eapply fetches_last; [reflexivity |].
    unfold is_last_page. do 6 eexists.
    split; [reflexivity |]. repeat split; reflexivity.
  - lia.
  - reflexivity.
Defined.

(** ** The transport adapter and the program as it is run *)

Section TransportRuns.

Context {T : Type}.
Variable gh : list string -> option string -> T -> process * T.
Variable json_dumps : pyval -> string.
Variable json_loads : string -> string + pyval.
Variable repr : pyval -> string.

Lemma verify_gh_auth_returns t stdout stderr t' :
  gh ["gh"; "auth"; "status"] None t = (Exited 0 stdout stderr, t') ->
  verify_gh_auth gh t = (Return tt, t').
Proof.
  intros H. unfold verify_gh_auth, subprocess_run. rewrite H. reflexivity.
Qed.

Lemma verify_gh_auth_not_found t t' :
  gh ["gh"; "auth"; "status"] None t = (NotFound, t') ->
  verify_gh_auth gh t = (Raise (Exception not_found_message), t').
Proof.
  intros H. unfold verify_gh_auth, subprocess_run. rewrite H. reflexivity.
Qed.

Lemma verify_gh_auth_not_authenticated t returncode stdout stderr t' :
  gh ["gh"; "auth"; "status"] None t = (Exited returncode stdout stderr, t') ->
  returncode <> 0%Z ->
  verify_gh_auth gh t = (Raise (Exception not_authenticated_message), t').
Proof.
  intros H Hcode. unfold verify_gh_auth, subprocess_run. rewrite H.
  destruct (Z.eqb_spec returncode 0); [contradiction | reflexivity].
Qed.


Lemma init_raises t e t' :
  verify_gh_auth gh t = (Raise e, t') ->
  init gh json_dumps json_loads repr t = (Raise e, t').
Proof.
  intros H. unfold init. cbn [bind ret io_Monad _verify_gh_auth
                                GitHubProjectExporter].
  unfold io_bind. rewrite H. reflexivity.
Qed.


End TransportRuns.

(** X14: the authentication check: when [gh] is logged in it returns;
    when [gh] is not installed it raises with the text that tells how to
    install it, and when [gh auth status] exits with another code than
    zero, with the text that tells to run [gh auth login]. *)
Theorem auth_check_outcomes {T}
    (gh : list string -> option string -> T -> process * T) (t : T) :
  let run := gh ["gh"; "auth"; "status"] None t in
  (forall stdout stderr t',
     run = (Exited 0 stdout stderr, t') ->
     verify_gh_auth gh t = (Return tt, t')) /\
  (forall t',
     run = (NotFound, t') ->
     verify_gh_auth gh t =
     (Raise (Exception "GitHub CLI not found. Please install it:
  macOS: brew install gh
  Ubuntu/Debian: sudo apt install gh
  Windows: winget install GitHub.cli"), t')) /\
  (forall returncode stdout stderr t',
     run = (Exited returncode stdout stderr, t') ->
     returncode <> 0%Z ->
     verify_gh_auth gh t =
     (Raise (Exception "GitHub CLI not authenticated. Please run:
  gh auth login"), t')).
Proof.
  cbv zeta. repeat split.
  - apply verify_gh_auth_returns.
  - apply verify_gh_auth_not_found.
  - apply verify_gh_auth_not_authenticated.
Qed.

Lemma auth_check_outcomes_witness :
  verify_gh_auth (constant_gh (Exited 0 "" "Logged in")) tt = (Return tt, tt) /\
  verify_gh_auth (constant_gh NotFound) tt
  = (Raise (Exception not_found_message), tt) /\
  verify_gh_auth (constant_gh (Exited 1 "" "not logged in")) tt
  = (Raise (Exception not_authenticated_message), tt).
Proof.
  split; [| split].
  - exact (proj1 (auth_check_outcomes (constant_gh (Exited 0 "" "Logged in")) tt)
             "" "Logged in" tt eq_refl).
  - exact (proj1 (proj2 (auth_check_outcomes (constant_gh NotFound) tt))
             tt eq_refl).
  - apply (proj2 (proj2 (auth_check_outcomes
                           (constant_gh (Exited 1 "" "not logged in")) tt))
             1%Z "" "not logged in" tt eq_refl).
    discriminate.
Defined.

(** X15: when the authentication check fails, because [gh] is missing or
    not logged in, [main] exits with code 1 after that one call of [gh]:
    no query is sent and no file is written. *)
Theorem failed_auth_check_stops_main {T}
    (gh : list string -> option string -> T -> process * T)
    json_dumps json_loads repr fuel (w : world T) t' :
  gh ["gh"; "auth"; "status"] None (tool w) = (NotFound, t') \/
  (exists returncode stdout stderr,
     gh ["gh"; "auth"; "status"] None (tool w)
     = (Exited returncode stdout stderr, t') /\ returncode <> 0%Z) ->
  main gh json_dumps json_loads repr fuel w =
  (Return 1%Z, {| tool := t'; files := files w |}).
Proof.
  intros H. unfold main.
  destruct H as [H | (returncode & stdout & stderr & H & Hcode)].
  - apply (main_of_init_raises repr _ fuel w
             (Exception not_found_message)).
    apply init_raises, verify_gh_auth_not_found. exact H.
  - apply (main_of_init_raises repr _ fuel w
             (Exception not_authenticated_message)).
    apply init_raises.
    exact (verify_gh_auth_not_authenticated gh _ _ _ _ _ H Hcode).
Qed.

Lemma failed_auth_check_stops_main_witness :
  main (fun _ _ calls => (NotFound, S calls)) constant_dumps two_texts_loads
    unused_repr 10 {| tool := 0; files := [] |} =
  (Return 1%Z, {| tool := 1; files := [] |}).
Proof.
  apply (failed_auth_check_stops_main (fun _ _ calls => (NotFound, S calls))
           constant_dumps two_texts_loads unused_repr 10
           {| tool := 0; files := [] |} 1).
  left. reflexivity.
Defined.

(** X16: the query when [gh] is missing or the answer has another shape:
    a missing [gh] raises FileNotFoundError, which is not turned into the
    "gh CLI request failed" text; an answer that is an object without
    "errors" and without "data" raises KeyError; an answer that is null, a
    boolean or a number raises TypeError. *)
Theorem query_on_other_answers {T}
    (gh : list string -> option string -> T -> process * T)
    json_dumps json_loads repr query variables (t : T) :
  let payload := PDict [("query", PStr query); ("variables", variables)] in
  let run := gh ["gh"; "api"; "graphql"; "--input"; "-"]
                (Some (json_dumps payload)) t in
  let result :=
    make_graphql_request gh json_dumps json_loads repr query variables t in
  (forall t', run = (NotFound, t') -> result = (Raise FileNotFoundError, t')) /\
  (forall stdout stderr t' d,
     run = (Exited 0 stdout stderr, t') ->
     json_loads stdout = inr (PDict d) ->
     lookup "errors" d = None ->
     lookup "data" d = None ->
     result = (Raise (KeyError "data"), t')) /\
  (forall stdout stderr t' data,
     run = (Exited 0 stdout stderr, t') ->
     json_loads stdout = inr data ->
     match data with
     | PNone | PBool _ | PInt _ | PFloat _ => True
     | _ => False
     end ->
     result = (Raise TypeError, t')).
Proof.
  cbv zeta. unfold make_graphql_request.
  cbn [bind io_Monad]. unfold io_bind, subprocess_run, pure.
  repeat split.
  - intros t' ->. reflexivity.
  - intros stdout stderr t' d -> Hloads Herrors Hdata. cbn [Z.eqb].
    rewrite Hloads. cbn [contains subscript]. rewrite Herrors, Hdata.
    reflexivity.
  - intros stdout stderr t' data -> Hloads Hdata. cbn [Z.eqb].
    rewrite Hloads. destruct data; try contradiction; reflexivity.
Qed.

Lemma query_on_other_answers_witness :
  make_graphql_request (constant_gh NotFound) constant_dumps two_texts_loads
    unused_repr items_query PNone tt = (Raise FileNotFoundError, tt) /\
  make_graphql_request (constant_gh (Exited 0 "{}" "")) constant_dumps
    (fun _ => inr (PDict [])) unused_repr items_query PNone tt
  = (Raise (KeyError "data"), tt) /\
  make_graphql_request (constant_gh (Exited 0 "null" "")) constant_dumps
    (fun _ => inr PNone) unused_repr items_query PNone tt
  = (Raise TypeError, tt).
Proof.
  split; [| split].
  - exact (proj1 (query_on_other_answers (constant_gh NotFound) constant_dumps
                    two_texts_loads unused_repr items_query PNone tt)
             tt eq_refl).
  - exact (proj1 (proj2 (query_on_other_answers
                    (constant_gh (Exited 0 "{}" "")) constant_dumps
                    (fun _ => inr (PDict [])) unused_repr items_query PNone tt))
             "{}" "" tt [] eq_refl eq_refl eq_refl eq_refl).
  - exact (proj2 (proj2 (query_on_other_answers
                    (constant_gh (Exited 0 "null" "")) constant_dumps
                    (fun _ => inr PNone) unused_repr items_query PNone tt))
             "null" "" tt PNone eq_refl eq_refl I).
Defined.

(** X17: each method of the adapter runs [gh] once and never again,
    whatever comes of it: the state it leaves is the state [gh] left after
    that one call, for the check with the arguments "auth status" and
    no input, for the query with "api graphql --input -" and the payload
    as input. *)
Theorem adapter_calls_gh_once {T}
    (gh : list string -> option string -> T -> process * T)
    json_dumps json_loads repr query variables (t : T) :
  snd (verify_gh_auth gh t) = snd (gh ["gh"; "auth"; "status"] None t) /\
  snd (make_graphql_request gh json_dumps json_loads repr query variables t) =
  snd (gh ["gh"; "api"; "graphql"; "--input"; "-"]
          (Some (json_dumps (PDict [("query", PStr query);
                                    ("variables", variables)]))) t).
Proof.
  split.
  - unfold verify_gh_auth, subprocess_run.
    destruct (gh ["gh"; "auth"; "status"] None t) as [[| rc out err] t'];
      [reflexivity |].
    destruct (Z.eqb rc 0); reflexivity.
  - unfold make_graphql_request. cbn [bind io_Monad].
    unfold io_bind, subprocess_run, pure.
    destruct (gh _ _ t) as [[| rc out err] t']; [reflexivity |].
    destruct (Z.eqb rc 0); [| reflexivity].
    destruct (json_loads out) as [msg | data]; [reflexivity |].
    destruct (contains "errors" data) as [[|] | e |]; try reflexivity.
    + destruct (subscript data "errors") as [errors | e |];
        try reflexivity; destruct e; reflexivity.
    + destruct (subscript data "data") as [v | e |];
        try reflexivity; destruct e; reflexivity.
    + destruct e; reflexivity.
Qed.


